(** * extract_arxiv: the first n records of a JSON Lines snapshot

    A shallow embedding of [scripts/extract_arxiv.py] and the properties of
    its one function, [extract_first_n_objects].

    The script reads a text file line by line, decodes each of the first
    [n] lines with [json.loads], collects the decoded objects in a list,
    and writes the list with [json.dump] to a second file, printing
    progress on standard output.

    Python text is a list of code points, Python integers are [Z], the
    file system is a finite map from paths to files, and the function runs
    in a small state-and-exception monad over the file system and standard
    output.  The [json] module of the Python library is not part of the
    script: it is a parameter of the development (record [json_module]).

    Outside the model, all of it behaviour of the Python library and not
    of the script: the encoding of text as UTF-8 bytes (files hold code
    points and every text can be written, where the codec refuses a lone
    surrogate), directories (a path that is absent can always be created),
    and the exceptions of [json.loads] other than [JSONDecodeError]
    ([RecursionError], [MemoryError], the [ValueError] of an integer
    literal past the digit limit).  Whether [json.loads] reads back what
    [json.dump] wrote is a property of that library too, and is neither
    assumed nor proved here. *)

From Stdlib Require Import ZArith Lia Ascii String List.
From Stdlib Require Import Floats.SpecFloat.
From stdpp Require Import gmap strings list pretty.
From Stdlib Require Import Sorted.

(** ** Python text *)

(** A [str] is a sequence of Unicode code points. *)
Definition char : Type := N.
Definition str : Type := list char.

(** The code points of an ASCII literal. *)
Fixpoint lit (s : string) : str :=
  match s with
  | EmptyString => []
  | String a s' => N_of_ascii a :: lit s'
  end.

Definition LF : char := 0x0A%N.
Definition CR : char := 0x0D%N.

(** The characters [str.strip()] removes when it is called without an
    argument: those for which [str.isspace] holds. *)
Definition Py_UNICODE_ISSPACE (ch : char) : bool :=
  bool_decide (ch ∈ [0x09; 0x0A; 0x0B; 0x0C; 0x0D; 0x1C; 0x1D; 0x1E; 0x1F; 0x20;
                     0x85; 0xA0; 0x1680; 0x2028; 0x2029; 0x202F; 0x205F; 0x3000]%N)
  || (0x2000 <=? ch)%N && (ch <=? 0x200A)%N.

Fixpoint lstrip (s : str) : str :=
  match s with
  | [] => []
  | ch :: s' => if Py_UNICODE_ISSPACE ch then lstrip s' else s
  end.

Fixpoint rstrip (s : str) : str :=
  match s with
  | [] => []
  | ch :: s' =>
      match rstrip s' with
      | [] => if Py_UNICODE_ISSPACE ch then [] else [ch]
      | r => ch :: r
      end
  end.

(** [line.strip()] *)
Definition strip (s : str) : str := rstrip (lstrip s).

(** Iterating over a file opened in text mode yields its lines, each with
    its terminator; with the default [newline=None] the terminators
    [\n], [\r] and [\r\n] all end a line and are read as [\n].  [cur] is
    the line being accumulated, [after_cr] tells that the previous
    character was a [\r]. *)
Fixpoint readlines_from (after_cr : bool) (cur : str) (text : str) : list str :=
  match text with
  | [] => match cur with [] => [] | _ => [cur] end
  | ch :: rest =>
      if (ch =? LF)%N then
        if after_cr then readlines_from false cur rest
        else (cur ++ [LF]) :: readlines_from false [] rest
      else if (ch =? CR)%N then (cur ++ [LF]) :: readlines_from true [] rest
      else readlines_from false (cur ++ [ch]) rest
  end.

Definition readlines (text : str) : list str := readlines_from false [] text.

(** ** Python objects and the json module *)

(** The objects [json.loads] builds, which are also what a Python function
    returns: [None], booleans, integers, floats, strings, lists, and
    dictionaries with string keys (in insertion order). *)
#[warnings="-register-all"]
Inductive value : Type :=
| PyNone
| PyBool (b : bool)
| PyInt (z : Z)
| PyFloat (f : spec_float)
| PyStr (s : str)
| PyList (items : list value)
| PyDict (items : list (str * value)).

(** [len(objects)] *)
Definition len {A} (l : list A) : Z := Z.of_nat (length l).

(** [json.loads(s)] returns an object or raises [json.JSONDecodeError];
    the exception is kept as the text [str(e)] that the script prints. *)
Inductive decode_result : Type :=
| Decoded (obj : value)
| JSONDecodeError (e : str).

(** The two functions of the [json] module the script calls.  [dump obj]
    is the text that [json.dump(obj, outfile, indent=2, ensure_ascii=False)]
    writes to [outfile]. *)
Record json_module : Type := {
  loads : str → decode_result;
  dump : value → str
}.

(** ** Files, standard output, exceptions *)

Record file : Type := File {
  readable : bool;
  writable : bool;
  content : str
}.

(** What the script prints, one constructor per [print] call:
    the opening line, a warning for a line that does not decode, the
    progress indicator, and the two closing lines. *)
Inductive message : Type :=
| Extracting (n : Z) (input_file : string)
| Warning (lineno : Z) (e : str)
| Processed (count : Z)
| Writing (count : Z) (output_file : string)
| Done (count : Z) (output_file : string).

(** The text of each message, as the f-strings build it. *)
Definition render (m : message) : str :=
  match m with
  | Extracting n input_file =>
      lit "Extracting first " ++ lit (pretty n) ++ lit " JSON objects from "
        ++ lit input_file ++ lit "..."
  | Warning lineno e =>
      lit "Warning: Failed to parse line " ++ lit (pretty lineno) ++ lit ": " ++ e
  | Processed count =>
      lit "  Processed " ++ lit (pretty count) ++ lit " objects..."
  | Writing count output_file =>
      lit "Writing " ++ lit (pretty count) ++ lit " objects to "
        ++ lit output_file ++ lit "..."
  | Done count output_file =>
      lit "Done! Extracted " ++ lit (pretty count) ++ lit " objects to "
        ++ lit output_file
  end.

Record world : Type := World {
  fs : gmap string file;
  stdout : list message
}.

(** The exceptions [open] raises. *)
Inductive OSError : Type :=
| FileNotFoundError (path : string)
| PermissionError (path : string).

Inductive outcome (A : Type) : Type :=
| Returned (v : A)
| Raised (e : OSError).
Arguments Returned {A} v.
Arguments Raised {A} e.

(** A computation reads and changes the world, and returns or raises. *)
Definition M (A : Type) : Type := world → outcome A * world.

#[global] Instance M_ret : MRet M := λ A (v : A) w, (Returned v, w).

#[global] Instance M_bind : MBind M := λ A B (k : A → M B) (m : M A) w,
  match m w with
  | (Returned v, w') => k v w'
  | (Raised e, w') => (Raised e, w')
  end.

Definition print (m : message) : M unit := λ w,
  (Returned tt, {| fs := fs w; stdout := stdout w ++ [m] |}).

(** [open(path, 'r', encoding='utf-8')]: the text of the file, when it
    exists and may be read. *)
Definition open_read (path : string) : M str := λ w,
  match fs w !! path with
  | None => (Raised (FileNotFoundError path), w)
  | Some f =>
      if readable f then (Returned (content f), w)
      else (Raised (PermissionError path), w)
  end.

(** [open(path, 'w', encoding='utf-8')]: the file is created, or emptied
    when it exists and may be written. *)
Definition open_write (path : string) : M unit := λ w,
  match fs w !! path with
  | None =>
      (Returned tt, {| fs := <[path := File true true []]> (fs w); stdout := stdout w |})
  | Some f =>
      if writable f
      then (Returned tt,
            {| fs := <[path := File (readable f) (writable f) []]> (fs w);
               stdout := stdout w |})
      else (Raised (PermissionError path), w)
  end.

(** Writing to the open file appends to its content. *)
Definition file_write (path : string) (text : str) : M unit := λ w,
  (Returned tt,
   {| fs := alter (λ f, File (readable f) (writable f) (content f ++ text)) path (fs w);
      stdout := stdout w |}).

(** ** The script *)

Section Script.

Variable json : json_module.

(** The loop [for i, line in enumerate(infile)], started at index [i] with
    the lines still to come:
<<
    if i >= n: break
    try:
        obj = json.loads(line.strip())
        objects.append(obj)
    except json.JSONDecodeError as e:
        print(f"Warning: Failed to parse line {i+1}: {e}")
        continue
    if (i + 1) % 100 == 0:
        print(f"  Processed {i + 1} objects...")
>>
 *)
Fixpoint for_lines (n i : Z) (lines : list str) (objects : list value)
  : M (list value) :=
  match lines with
  | [] => mret objects
  | line :: rest =>
      if (i >=? n)%Z then mret objects
      else
        match loads json (strip line) with
        | Decoded obj =>
            let objects := objects ++ [obj] in
            (if ((i + 1) mod 100 =? 0)%Z then print (Processed (i + 1)) else mret tt) ;;
            for_lines n (i + 1) rest objects
        | JSONDecodeError e =>
            print (Warning (i + 1) e) ;;
            for_lines n (i + 1) rest objects
        end
  end.

(** [extract_first_n_objects(input_file, output_file, n)].  The function
    has no [return] statement: it returns [None]. *)
Definition extract_first_n_objects (input_file output_file : string) (n : Z)
  : M value :=
  print (Extracting n input_file) ;;
  infile ← open_read input_file ;
  objects ← for_lines n 0 (readlines infile) [] ;
  print (Writing (len objects) output_file) ;;
  open_write output_file ;;
  file_write output_file (dump json (PyList objects)) ;;
  print (Done (len objects) output_file) ;;
  mret PyNone.

End Script.

(** ** What the loop computes, as functions on the list of lines *)

Section Records.

Variable json : json_module.

(** The object a line decodes to, if it does, and the error text if not. *)
Definition decoded_value (line : str) : option value :=
  match loads json (strip line) with
  | Decoded obj => Some obj
  | JSONDecodeError _ => None
  end.

Definition decode_error (line : str) : option str :=
  match loads json (strip line) with
  | Decoded _ => None
  | JSONDecodeError e => Some e
  end.

Definition parses (line : str) : bool :=
  match loads json (strip line) with
  | Decoded _ => true
  | JSONDecodeError _ => false
  end.

(** The lines the loop examines: the first [n], or all of them. *)
Definition first_lines (n : Z) (lines : list str) : list str :=
  take (Z.to_nat n) lines.

(** The objects of the lines that decode, in the order of the lines. *)
Definition parsed_records (lines : list str) : list value :=
  omap decoded_value lines.

(** What is printed for the line with 0-based index [i]. *)
Definition line_log (i : Z) (line : str) : list message :=
  match loads json (strip line) with
  | Decoded _ => if ((i + 1) mod 100 =? 0)%Z then [Processed (i + 1)] else []
  | JSONDecodeError e => [Warning (i + 1) e]
  end.

(** What is printed for a run of lines, the first of which has index [i]. *)
Fixpoint scan_log (i : Z) (lines : list str) : list message :=
  match lines with
  | [] => []
  | line :: rest => line_log i line ++ scan_log (i + 1) rest
  end.

(** The 1-based numbers and error texts of the lines that do not decode,
    the first line having index [i]. *)
Fixpoint failures (i : Z) (lines : list str) : list (Z * str) :=
  match lines with
  | [] => []
  | line :: rest =>
      match decode_error line with
      | Some e => ((i + 1)%Z, e) :: failures (i + 1) rest
      | None => failures (i + 1) rest
      end
  end.

(** The 1-based numbers, multiples of 100, of the lines that decode. *)
Fixpoint milestones (i : Z) (lines : list str) : list Z :=
  match lines with
  | [] => []
  | line :: rest =>
      if parses line && ((i + 1) mod 100 =? 0)%Z
      then (i + 1)%Z :: milestones (i + 1) rest
      else milestones (i + 1) rest
  end.

(** The index in the output array of the record of line [p]: the number
    of lines before it that decode. *)
Definition slot (lines : list str) (p : nat) : nat :=
  length (parsed_records (take p lines)).

(** The objects the function collects from a text: the Sample. *)
Definition sample (n : Z) (text : str) : list value :=
  parsed_records (first_lines n (readlines text)).

(** What the function prints between its opening and closing lines. *)
Definition scan_messages (n : Z) (text : str) : list message :=
  scan_log 0 (first_lines n (readlines text)).

End Records.

(** The warnings and the progress reports among printed messages. *)
Definition warnings_of (log : list message) : list (Z * str) :=
  omap (λ m, match m with Warning lineno e => Some (lineno, e) | _ => None end) log.

Definition progress_of (log : list message) : list Z :=
  omap (λ m, match m with Processed count => Some count | _ => None end) log.

(** The conditions under which the two [open] calls succeed. *)
Definition can_read (w : world) (path : string) (text : str) : Prop :=
  ∃ f, fs w !! path = Some f ∧ readable f = true ∧ content f = text.

Definition can_write (w : world) (path : string) : Prop :=
  ∀ f, fs w !! path = Some f → writable f = true.

(** The file [open(path, 'w')] leaves behind once [text] is written. *)
Definition written_file (w : world) (path : string) (text : str) : file :=
  match fs w !! path with
  | Some f => File (readable f) (writable f) text
  | None => File true true text
  end.

(** ** A small json module

    An instance of [json_module] to run the script on: the JSON documents
    built from [null], [true], [false], decimal integers and arrays.
    Strings, floats and objects are outside this fragment: the decoder
    reports them as errors, as it does every text that is not JSON, and
    the encoder, which the script applies to decoded objects only, writes
    [null] for them. *)

Module Mini.

Definition is_json_space (ch : char) : bool :=
  bool_decide (ch ∈ [0x20; 0x09; 0x0A; 0x0D]%N).

Fixpoint skip_ws (s : str) : str :=
  match s with
  | [] => []
  | ch :: s' => if is_json_space ch then skip_ws s' else s
  end.

Definition is_digit (ch : char) : bool := (0x30 <=? ch)%N && (ch <=? 0x39)%N.

(** The digits [s] starts with, read after the number [acc]. *)
Fixpoint digits (acc : Z) (s : str) : Z * str :=
  match s with
  | [] => (acc, [])
  | ch :: s' =>
      if is_digit ch then digits (10 * acc + Z.of_N (ch - 0x30)) s' else (acc, s)
  end.

(** An integer literal: [0], or a non-zero digit followed by digits. *)
Definition number (s : str) : option (Z * str) :=
  match s with
  | [] => None
  | ch :: s' =>
      if (ch =? 0x30)%N then Some (0%Z, s')
      else if is_digit ch then Some (digits 0 s)
      else None
  end.

(** One value at the head of [s], and the text after it. *)
Fixpoint scan_value (fuel : nat) (s : str) : option (value * str) :=
  match fuel with
  | O => None
  | S fuel =>
      match skip_ws s with
      | 0x6E :: 0x75 :: 0x6C :: 0x6C :: r => Some (PyNone, r)
      | 0x74 :: 0x72 :: 0x75 :: 0x65 :: r => Some (PyBool true, r)
      | 0x66 :: 0x61 :: 0x6C :: 0x73 :: 0x65 :: r => Some (PyBool false, r)
      | 0x5B :: r =>
          match skip_ws r with
          | 0x5D :: r' => Some (PyList [], r')
          | _ =>
              match scan_items fuel r with
              | Some (items, r') => Some (PyList items, r')
              | None => None
              end
          end
      | 0x2D :: r =>
          match number r with
          | Some (z, r') => Some (PyInt (- z), r')
          | None => None
          end
      | r =>
          match number r with
          | Some (z, r') => Some (PyInt z, r')
          | None => None
          end
      end
  end%N
with scan_items (fuel : nat) (s : str) : option (list value * str) :=
  match fuel with
  | O => None
  | S fuel =>
      match scan_value fuel s with
      | Some (item, r) =>
          match skip_ws r with
          | 0x2C :: r' =>
              match scan_items fuel r' with
              | Some (items, r'') => Some (item :: items, r'')
              | None => None
              end
          | 0x5D :: r' => Some ([item], r')
          | _ => None
          end
      | None => None
      end
  end%N.

Definition loads (s : str) : decode_result :=
  match scan_value (2 * length s + 2) s with
  | Some (obj, r) =>
      match skip_ws r with
      | [] => Decoded obj
      | _ => JSONDecodeError (lit "Extra data")
      end
  | None => JSONDecodeError (lit "Expecting value")
  end.

Definition indentation (level : nat) : str := replicate (2 * level) 0x20%N.

(** The items of an array, one per line at the given level. *)
Fixpoint join_items (level : nat) (texts : list str) : str :=
  match texts with
  | [] => []
  | [t] => indentation level ++ t ++ [LF]
  | t :: ts => indentation level ++ t ++ lit "," ++ [LF] ++ join_items level ts
  end.

(** The text of an object nested [level] arrays deep, indented by two
    spaces per level. *)
Fixpoint dump_at (level : nat) (obj : value) : str :=
  match obj with
  | PyNone => lit "null"
  | PyBool true => lit "true"
  | PyBool false => lit "false"
  | PyInt z => lit (pretty z)
  | PyList [] => lit "[]"
  | PyList items =>
      lit "[" ++ [LF] ++ join_items (S level) (map (dump_at (S level)) items)
        ++ indentation level ++ lit "]"
  | _ => lit "null"
  end.

Definition dump (obj : value) : str := dump_at 0 obj.

Definition json : json_module := Build_json_module loads dump.

End Mini.

(** ** Inputs to run the script on *)

Definition input_name : string := "arxiv-metadata-oai-snapshot.json".
Definition output_name : string := "arxiv_sample.json".

(** The text of a file from its lines. *)
Definition text_of (lines : list string) : str :=
  concat (map (λ line, lit line ++ [LF]) lines).

(** A disk that holds the snapshot file and nothing else. *)
Definition disk_with (text : str) : world :=
  {| fs := {[ input_name := File true true text ]}; stdout := [] |}.

(** Three lines: an array, a malformed line, an array. *)
Definition three_lines : str := text_of ["[1, 2]"; "{bad json"; "[3]"].

(** A hundred lines, the last of which is malformed. *)
Definition hundred_lines : str := text_of (replicate 99 "null" ++ ["{bad json"]).

(** Two hundred and fifty lines that all decode. *)
Definition many_lines : str := text_of (replicate 250 "null").

(** Three lines, the second of which is blank. *)
Definition blank_second_line : str := text_of ["true"; "   "; "false"].

(** A disk without the snapshot file. *)
Definition empty_disk : world := {| fs := ∅; stdout := [] |}.

(** ** Two readings of the function that it does not satisfy *)

(** A progress report for every examined line whose number is a multiple of
    100, whether or not the line decodes. *)
Definition progress_at_every_hundredth_line (json : json_module)
    (input_file output_file : string) (n : Z) (w : world) : Prop :=
  ∀ text p line,
    can_read w input_file text →
    first_lines n (readlines text) !! p = Some line →
    ((Z.of_nat p + 1) mod 100 = 0)%Z →
    Processed (Z.of_nat p + 1)
      ∈ stdout (extract_first_n_objects json input_file output_file n w).2.

(** The call returns the length of the array it wrote. *)
Definition returns_written_count (json : json_module)
    (input_file output_file : string) (n : Z) (w : world) : Prop :=
  ∃ objects w',
    extract_first_n_objects json input_file output_file n w
      = (Returned (PyInt (len objects)), w')
    ∧ content <$> fs w' !! output_file = Some (dump json (PyList objects)).

(** ** The command line

    The body of the script under [if __name__ == "__main__"]. *)

(** The exceptions that can leave the script: [int] raises [ValueError]
    on a text that is not an integer literal, [open] raises an
    [OSError]. *)
Inductive exception : Type :=
| ValueError (literal : string)
| OS (e : OSError).

(** How a run of the script ends: at the end of the file, or with an
    exception that nothing catches. *)
Inductive termination : Type :=
| Finished
| Uncaught (e : exception).

Section Main.

Variable json : json_module.

(** The built-in [int] applied to a text: the integer, or [None] when it
    raises [ValueError]. *)
Variable int : string → option Z.

(** The script run with [sys.argv = argv]:
<<
    input_file = "arxiv-metadata-oai-snapshot.json"
    output_file = "arxiv_sample.json"
    n = 100
    if len(sys.argv) > 1: n = int(sys.argv[1])
    if len(sys.argv) > 2: output_file = sys.argv[2]
    if len(sys.argv) > 3: input_file = sys.argv[3]
    extract_first_n_objects(input_file, output_file, n)
>>
 *)
Definition main (argv : list string) (w : world) : termination * world :=
  let input_file := "arxiv-metadata-oai-snapshot.json" in
  let output_file := "arxiv_sample.json" in
  let n := 100%Z in
  match (if (len argv >? 1)%Z then int (argv !!! 1%nat) else Some n) with
  | None => (Uncaught (ValueError (argv !!! 1%nat)), w)
  | Some n =>
      let output_file :=
        if (len argv >? 2)%Z then argv !!! 2%nat else output_file in
      let input_file :=
        if (len argv >? 3)%Z then argv !!! 3%nat else input_file in
      match extract_first_n_objects json input_file output_file n w with
      | (Returned _, w') => (Finished, w')
      | (Raised e, w') => (Uncaught (OS e), w')
      end
  end.

End Main.

(** The line number a message of the scan carries. *)
Definition message_line (m : message) : option Z :=
  match m with
  | Warning lineno _ => Some lineno
  | Processed count => Some count
  | _ => None
  end.

(** An [int] to run the script on: an optional sign and decimal digits. *)
Fixpoint digits_value (acc : Z) (s : string) : option Z :=
  match s with
  | EmptyString => Some acc
  | String a s' =>
      let d := N_of_ascii a in
      if (0x30 <=? d)%N && (d <=? 0x39)%N
      then digits_value (10 * acc + Z.of_N (d - 0x30)) s'
      else None
  end.

Definition decimal (s : string) : option Z :=
  match s with
  | EmptyString => None
  | String "-" EmptyString => None
  | String "+" EmptyString => None
  | String "-" s' => Z.opp <$> digits_value 0 s'
  | String "+" s' => digits_value 0 s'
  | _ => digits_value 0 s
  end.

(** ** The loop *)

Section Loop.

Variable json : json_module.

Lemma world_eta (w : world) : {| fs := fs w; stdout := stdout w |} = w.
Proof. by destruct w. Qed.

Lemma cutoff_reached (n i : Z) : (i >=? n)%Z = true → Z.to_nat (n - i) = 0%nat.
Proof. intros H. apply Z.geb_le in H. lia. Qed.

Lemma cutoff_ahead (n i : Z) :
  (i >=? n)%Z = false → Z.to_nat (n - i) = S (Z.to_nat (n - (i + 1))).
Proof. intros H. rewrite Z.geb_leb in H. apply Z.leb_gt in H. lia. Qed.

(** The loop examines the first [n - i] of the lines to come, appends the
    objects of those that decode, prints their log, and always returns. *)
Lemma for_lines_run (n i : Z) (lines : list str) (objects : list value) (w : world) :
  for_lines json n i lines objects w =
    (Returned (objects ++ parsed_records json (take (Z.to_nat (n - i)) lines)),
     {| fs := fs w;
        stdout := stdout w ++ scan_log json i (take (Z.to_nat (n - i)) lines) |}).
Proof.
  revert i objects w.
  induction lines as [|line rest IH]; intros i objects w.
  - rewrite take_nil. cbn. by rewrite !app_nil_r, world_eta.
  - cbn [for_lines]. destruct (i >=? n)%Z eqn:Hcut.
    + rewrite (cutoff_reached _ _ Hcut). cbn.
      by rewrite !app_nil_r, world_eta.
    + rewrite (cutoff_ahead _ _ Hcut). cbn [take].
      unfold parsed_records. cbn [omap list_omap scan_log].
      unfold decoded_value at 1, line_log.
      destruct (loads json (strip line)) as [obj|e].
      * unfold mbind, M_bind.
        destruct ((i + 1) mod 100 =? 0)%Z; cbn;
          rewrite IH; cbn; by rewrite <- !app_assoc.
      * unfold mbind, M_bind. cbn. rewrite IH. cbn. by rewrite <- !app_assoc.
Qed.

End Loop.

(** ** The whole function *)

Section Run.

Variable json : json_module.

Lemma open_read_ok (w : world) (path : string) (text : str) :
  can_read w path text → open_read path w = (Returned text, w).
Proof.
  intros (f & Hf & Hr & Hc). unfold open_read. by rewrite Hf, Hr, Hc.
Qed.

(** [open(path, 'w')] succeeds unless the file is there and protected. *)
Lemma can_write_cases (w : world) (path : string) :
  can_write w path ∨ ∃ f, fs w !! path = Some f ∧ writable f = false.
Proof.
  unfold can_write.
  destruct (fs w !! path) as [f|]; [destruct (writable f) eqn:Hw|].
  - left. by intros f' [= <-].
  - right. by exists f.
  - by left.
Qed.

Lemma can_read_cases (w : world) (path : string) :
  (∃ text, can_read w path text) ∨ ∃ e, open_read path w = (Raised e, w).
Proof.
  unfold can_read, open_read.
  destruct (fs w !! path) as [f|]; [destruct (readable f) eqn:Hr|].
  - left. by exists (content f), f.
  - right. by eexists.
  - right. by eexists.
Qed.

(** When both files can be opened the function returns [None], having
    written the Sample to the output file in one piece. *)
Lemma extract_run (input_file output_file : string) (n : Z) (w : world) (text : str) :
  can_read w input_file text →
  can_write w output_file →
  extract_first_n_objects json input_file output_file n w =
    (Returned PyNone,
     {| fs := <[output_file :=
                 written_file w output_file (dump json (PyList (sample json n text)))]> (fs w);
        stdout := stdout w ++ [Extracting n input_file] ++ scan_messages json n text
                    ++ [Writing (len (sample json n text)) output_file;
                        Done (len (sample json n text)) output_file] |}).
Proof.
  intros Hread Hwrite.
  unfold extract_first_n_objects, mbind, M_bind.
  cbn [print].
  replace (open_read input_file _) with
    (Returned text, {| fs := fs w; stdout := stdout w ++ [Extracting n input_file] |}).
  2:{ symmetry. apply open_read_ok. exact Hread. }
  rewrite for_lines_run. cbn [fs stdout]. rewrite Z.sub_0_r, app_nil_l.
  fold (first_lines n (readlines text)).
  fold (sample json n text). fold (scan_messages json n text).
  unfold open_write, file_write, written_file, can_write in *. cbn [fs stdout].
  destruct (fs w !! output_file) as [f|] eqn:Hout.
  - rewrite (Hwrite f eq_refl). cbn [fs stdout mret M_ret].
    rewrite alter_insert_eq. cbn.
    by rewrite <- !app_assoc.
  - cbn [fs stdout mret M_ret].
    rewrite alter_insert_eq. cbn.
    by rewrite <- !app_assoc.
Qed.

(** When the input file cannot be opened the exception of [open] leaves the
    function at once. *)
Lemma extract_no_input (input_file output_file : string) (n : Z) (w w1 : world)
    (e : OSError) :
  open_read input_file w = (Raised e, w1) →
  extract_first_n_objects json input_file output_file n w =
    (Raised e, {| fs := fs w; stdout := stdout w ++ [Extracting n input_file] |}).
Proof.
  intros H. unfold extract_first_n_objects, mbind, M_bind. cbn [print].
  unfold open_read in *. cbn [fs stdout].
  destruct (fs w !! input_file) as [f|]; [destruct (readable f)|]; congruence.
Qed.

(** When the output file cannot be opened the exception leaves the function
    after the scan, with no file changed. *)
Lemma extract_no_output (input_file output_file : string) (n : Z) (w : world)
    (text : str) (f : file) :
  can_read w input_file text →
  fs w !! output_file = Some f → writable f = false →
  extract_first_n_objects json input_file output_file n w =
    (Raised (PermissionError output_file),
     {| fs := fs w;
        stdout := stdout w ++ [Extracting n input_file] ++ scan_messages json n text
                    ++ [Writing (len (sample json n text)) output_file] |}).
Proof.
  intros Hread Hout Hw.
  unfold extract_first_n_objects, mbind, M_bind.
  cbn [print].
  replace (open_read input_file _) with
    (Returned text, {| fs := fs w; stdout := stdout w ++ [Extracting n input_file] |}).
  2:{ symmetry. apply open_read_ok. exact Hread. }
  rewrite for_lines_run. cbn [fs stdout]. rewrite Z.sub_0_r, app_nil_l.
  fold (first_lines n (readlines text)).
  fold (sample json n text). fold (scan_messages json n text).
  unfold open_write. cbn [fs stdout]. rewrite Hout, Hw.
  by rewrite <- !app_assoc.
Qed.

End Run.

(** ** Facts about the records and the log of a run of lines *)

Lemma filter_none {A} (P : A → Prop) `{!∀ x, Decision (P x)} (l : list A) :
  (∀ x, x ∈ l → ¬ P x) → filter P l = [].
Proof.
  induction l as [|x l IH]; intros Hl; [done|].
  rewrite filter_cons_False by (apply Hl, list_elem_of_here).
  apply IH. intros y Hy. by apply Hl, list_elem_of_further.
Qed.

Section Lines.

Variable json : json_module.

Lemma decoded_value_Some (line : str) (obj : value) :
  decoded_value json line = Some obj ↔ loads json (strip line) = Decoded obj.
Proof.
  unfold decoded_value. destruct (loads json (strip line)); split; congruence.
Qed.

Lemma decode_error_Some (line : str) (e : str) :
  decode_error json line = Some e ↔ loads json (strip line) = JSONDecodeError e.
Proof.
  unfold decode_error. destruct (loads json (strip line)); split; congruence.
Qed.

Lemma decoded_value_None (line : str) :
  decoded_value json line = None ↔ parses json line = false.
Proof.
  unfold decoded_value, parses. destruct (loads json (strip line)); split; congruence.
Qed.

Lemma warnings_of_app (l k : list message) :
  warnings_of (l ++ k) = warnings_of l ++ warnings_of k.
Proof. apply omap_app. Qed.

Lemma progress_of_app (l k : list message) :
  progress_of (l ++ k) = progress_of l ++ progress_of k.
Proof. apply omap_app. Qed.

(** The warnings of the log are the failures, the progress reports are the
    milestones. *)
Lemma warnings_scan_log (i : Z) (lines : list str) :
  warnings_of (scan_log json i lines) = failures json i lines.
Proof.
  revert i. induction lines as [|line rest IH]; intros i; [done|].
  cbn [scan_log failures]. rewrite warnings_of_app, IH.
  unfold line_log, decode_error.
  destruct (loads json (strip line)); [|done].
  by destruct ((i + 1) mod 100 =? 0)%Z.
Qed.

Lemma progress_scan_log (i : Z) (lines : list str) :
  progress_of (scan_log json i lines) = milestones json i lines.
Proof.
  revert i. induction lines as [|line rest IH]; intros i; [done|].
  cbn [scan_log milestones]. rewrite progress_of_app, IH.
  unfold line_log, parses.
  destruct (loads json (strip line)); [|done].
  by destruct ((i + 1) mod 100 =? 0)%Z.
Qed.

(** Every line gives a record or a warning, never both. *)
Lemma records_and_failures (i : Z) (lines : list str) :
  (length (parsed_records json lines) + length (failures json i lines))%nat
  = length lines.
Proof.
  revert i. induction lines as [|line rest IH]; intros i; [done|].
  unfold parsed_records in *. cbn [omap list_omap failures].
  unfold decoded_value at 1, decode_error.
  destruct (loads json (strip line)); cbn [length]; specialize (IH (i + 1)%Z); lia.
Qed.

Lemma parsed_records_filter (lines : list str) :
  Forall2 (λ obj line, loads json (strip line) = Decoded obj)
    (parsed_records json lines) (filter (λ line, parses json line) lines).
Proof.
  induction lines as [|line rest IH]; [constructor|].
  unfold parsed_records in *. cbn [omap list_omap].
  rewrite filter_cons.
  destruct (decoded_value json line) as [obj|] eqn:Hline.
  - apply decoded_value_Some in Hline.
    assert (parses json line = true) as Hparse by (unfold parses; by rewrite Hline).
    rewrite decide_True by (rewrite Hparse; exact I). by constructor.
  - apply decoded_value_None in Hline.
    rewrite decide_False by (rewrite Hline; exact id). done.
Qed.

Lemma parsed_records_length (lines : list str) :
  length (parsed_records json lines)
  = length (filter (λ line, parses json line) lines).
Proof. eapply Forall2_length, parsed_records_filter. Qed.

(** The line numbers of the failures lie after the starting index. *)
Lemma failures_lineno (i : Z) (lines : list str) (k : Z) (e : str) :
  (k, e) ∈ failures json i lines ↔
  ∃ p line, lines !! p = Some line ∧ k = (i + Z.of_nat p + 1)%Z
            ∧ loads json (strip line) = JSONDecodeError e.
Proof.
  revert i. induction lines as [|line rest IH]; intros i.
  - cbn. split; [by intros ?%elem_of_nil|]. by intros (p & l & ? & _).
  - cbn [failures]. split.
    + destruct (decode_error json line) as [e'|] eqn:Herr.
      * intros [Heq|Hin]%elem_of_cons.
        -- injection Heq as -> ->. exists 0%nat, line.
           split; [done|]. split; [lia|]. by apply decode_error_Some.
        -- apply IH in Hin as (p & l & Hp & -> & Hl).
           exists (S p), l. split; [done|]. split; [lia|done].
      * intros Hin. apply IH in Hin as (p & l & Hp & -> & Hl).
        exists (S p), l. split; [done|]. split; [lia|done].
    + intros (p & l & Hp & -> & Hl). destruct p as [|p].
      * injection Hp as ->. apply decode_error_Some in Hl. rewrite Hl.
        replace (i + Z.of_nat 0 + 1)%Z with (i + 1)%Z by lia. apply list_elem_of_here.
      * assert ((i + Z.of_nat (S p) + 1, e)%Z ∈ failures json (i + 1) rest) as Hin.
        { apply IH. exists p, l. split; [done|]. split; [lia|done]. }
        destruct (decode_error json line); [by apply list_elem_of_further|done].
Qed.

(** A line that does not decode is reported once, under its own number. *)
Lemma failures_once (i : Z) (lines : list str) (p : nat) (line e : str) :
  lines !! p = Some line →
  loads json (strip line) = JSONDecodeError e →
  filter (λ we, we.1 = (i + Z.of_nat p + 1)%Z) (failures json i lines)
  = [((i + Z.of_nat p + 1)%Z, e)].
Proof.
  revert i p. induction lines as [|l rest IH]; intros i p Hp Hl; [done|].
  destruct p as [|p].
  - injection Hp as ->. cbn [failures].
    apply decode_error_Some in Hl. rewrite Hl.
    replace (i + Z.of_nat 0 + 1)%Z with (i + 1)%Z by lia.
    rewrite filter_cons_True by done. f_equal.
    apply filter_none. intros [k e'] Hin.
    apply failures_lineno in Hin as (q & ? & _ & -> & _). cbn. lia.
  - cbn in Hp. cbn [failures].
    replace (i + Z.of_nat (S p) + 1)%Z with (i + 1 + Z.of_nat p + 1)%Z by lia.
    destruct (decode_error json l).
    + rewrite filter_cons_False by (cbn; lia). by apply IH.
    + by apply IH.
Qed.

Lemma milestones_elem (i : Z) (lines : list str) (k : Z) :
  k ∈ milestones json i lines ↔
  ∃ p line, lines !! p = Some line ∧ k = (i + Z.of_nat p + 1)%Z
            ∧ (k mod 100 = 0)%Z ∧ parses json line = true.
Proof.
  revert i. induction lines as [|line rest IH]; intros i.
  - cbn. split; [by intros ?%elem_of_nil|]. by intros (p & l & ? & _).
  - cbn [milestones]. split.
    + destruct (parses json line && ((i + 1) mod 100 =? 0)%Z) eqn:Htest.
      * apply andb_true_iff in Htest as [Hparse Hmod]. apply Z.eqb_eq in Hmod.
        intros [->|Hin]%elem_of_cons.
        -- exists 0%nat, line. split; [done|]. split; [lia|done].
        -- apply IH in Hin as (p & l & Hp & -> & Hl).
           exists (S p), l. split; [done|]. split; [lia|].
           by replace (i + Z.of_nat (S p) + 1)%Z with (i + 1 + Z.of_nat p + 1)%Z by lia.
      * intros Hin. apply IH in Hin as (p & l & Hp & -> & Hl).
        exists (S p), l. split; [done|]. split; [lia|].
        by replace (i + Z.of_nat (S p) + 1)%Z with (i + 1 + Z.of_nat p + 1)%Z by lia.
    + intros (p & l & Hp & -> & Hmod & Hparse). destruct p as [|p].
      * injection Hp as ->. rewrite Hparse.
        replace (i + Z.of_nat 0 + 1)%Z with (i + 1)%Z in * by lia.
        apply Z.eqb_eq in Hmod. rewrite Hmod. apply list_elem_of_here.
      * assert ((i + Z.of_nat (S p) + 1)%Z ∈ milestones json (i + 1) rest) as Hin.
        { apply IH. exists p, l. split; [done|].
          replace (i + 1 + Z.of_nat p + 1)%Z with (i + Z.of_nat (S p) + 1)%Z by lia.
          done. }
        destruct (parses json line && _); [by apply list_elem_of_further|done].
Qed.

(** When every line decodes, the milestones are the multiples of 100 among
    the line numbers. *)
Lemma milestones_all_parse (i : Z) (lines : list str) :
  Forall (λ line, parses json line = true) lines →
  milestones json i lines
  = filter (λ k, (k mod 100 = 0)%Z) (seqZ (i + 1) (Z.of_nat (length lines))).
Proof.
  intros Hall. revert i. induction Hall as [|line rest Hline _ IH]; intros i; [done|].
  cbn [milestones length]. rewrite seqZ_cons by lia.
  replace (Z.pred (Z.of_nat (S (length rest)))) with (Z.of_nat (length rest)) by lia.
  replace (Z.succ (i + 1)) with (i + 1 + 1)%Z by lia.
  rewrite Hline, filter_cons, IH. cbn.
  destruct ((i + 1) mod 100 =? 0)%Z eqn:Hmod.
  - apply Z.eqb_eq in Hmod. by rewrite decide_True.
  - apply Z.eqb_neq in Hmod. by rewrite decide_False.
Qed.

End Lines.

Section Slots.

Variable json : json_module.

Lemma parsed_records_middle (pre post : list str) (line : str) :
  parsed_records json (pre ++ line :: post)
  = parsed_records json pre
      ++ match decoded_value json line with Some obj => [obj] | None => [] end
      ++ parsed_records json post.
Proof.
  unfold parsed_records. rewrite omap_app. cbn [omap list_omap].
  by destruct (decoded_value json line).
Qed.

(** The record of line [p] sits in the array at the slot of [p]. *)
Lemma slot_lookup (lines : list str) (p : nat) (line : str) (obj : value) :
  lines !! p = Some line →
  loads json (strip line) = Decoded obj →
  parsed_records json lines !! slot json lines p = Some obj.
Proof.
  intros Hp Hline. apply decoded_value_Some in Hline.
  pose proof (take_drop_middle _ _ _ Hp) as Hsplit.
  unfold slot. revert Hsplit.
  generalize (take p lines) (drop (S p) lines). intros pre post <-.
  rewrite parsed_records_middle, Hline.
  rewrite lookup_app_r by lia. by rewrite Nat.sub_diag.
Qed.

(** Slots grow with the position, strictly past a line that decodes. *)
Lemma slot_lt (lines : list str) (p1 p2 : nat) (line1 : str) (obj1 : value) :
  (p1 < p2)%nat →
  lines !! p1 = Some line1 →
  loads json (strip line1) = Decoded obj1 →
  (slot json lines p1 < slot json lines p2)%nat.
Proof.
  intros Hlt Hp Hline. apply decoded_value_Some in Hline.
  assert (take p2 lines !! p1 = Some line1) as Hp' by (by rewrite lookup_take_lt).
  pose proof (take_drop_middle _ _ _ Hp') as Hsplit.
  rewrite take_take, Nat.min_l in Hsplit by lia.
  unfold slot. rewrite <- Hsplit, parsed_records_middle, Hline.
  rewrite !length_app. cbn. lia.
Qed.

Lemma slot_first_lines (n : Z) (lines : list str) (p : nat) :
  (Z.of_nat p ≤ n)%Z →
  slot json (first_lines n lines) p = slot json lines p.
Proof.
  intros Hp. unfold slot, first_lines. by rewrite take_take, Nat.min_l by lia.
Qed.

Lemma first_lines_lookup (n : Z) (lines : list str) (p : nat) (line : str) :
  first_lines n lines !! p = Some line ↔ lines !! p = Some line ∧ (Z.of_nat p < n)%Z.
Proof.
  unfold first_lines. rewrite lookup_take_Some. split; intros [? ?]; split; (done || lia).
Qed.

(** A line that does not decode adds no record and uses one of the [n]
    places: the records are those of the lines without it, cut off one
    line earlier. *)
Lemma skipped_line (n : Z) (lines : list str) (p : nat) (line : str) :
  (Z.of_nat p < n)%Z →
  lines !! p = Some line →
  parses json line = false →
  parsed_records json (first_lines n lines)
  = parsed_records json (first_lines (n - 1) (delete p lines)).
Proof.
  intros Hn Hp Hline. apply decoded_value_None in Hline.
  rewrite delete_take_drop.
  pose proof (take_drop_middle _ _ _ Hp) as Hsplit.
  assert (length (take p lines) = p) as Hlen.
  { apply length_take_le. apply lookup_lt_Some in Hp. lia. }
  revert Hsplit Hlen.
  generalize (take p lines) (drop (S p) lines). intros pre post <- Hlen.
  unfold first_lines.
  rewrite !take_app_ge by lia.
  replace (Z.to_nat n - length pre)%nat with (S (Z.to_nat (n - 1) - length pre)) by lia.
  cbn [take]. rewrite parsed_records_middle, Hline.
  unfold parsed_records. by rewrite omap_app.
Qed.

End Slots.

Lemma lstrip_whitespace (s : str) :
  Forall (λ ch, Py_UNICODE_ISSPACE ch = true) s → lstrip s = [].
Proof.
  induction 1 as [|ch s Hch _ IH]; [done|]. cbn [lstrip]. by rewrite Hch.
Qed.

(** Stripping a line of whitespace only, or an empty one, leaves the empty
    string. *)
Lemma strip_whitespace (s : str) :
  Forall (λ ch, Py_UNICODE_ISSPACE ch = true) s → strip s = [].
Proof. intros Hs. unfold strip. by rewrite lstrip_whitespace. Qed.

(** ** Properties of [extract_first_n_objects] *)

Section Messages.

Variable json : json_module.

(** Whether or not the output file can be opened, what the call prints
    after what was there: the opening line, the log of the scan, and
    closing lines that are neither warnings nor progress reports. *)
Lemma extract_prints (input_file output_file : string) (n : Z) (w : world) (text : str) :
  can_read w input_file text →
  ∃ r w' closing,
    extract_first_n_objects json input_file output_file n w = (r, w')
    ∧ stdout w' = stdout w ++ [Extracting n input_file]
                    ++ scan_messages json n text ++ closing
    ∧ warnings_of closing = [] ∧ progress_of closing = [].
Proof.
  intros Hread.
  destruct (can_write_cases w output_file) as [Hwrite|(f & Hout & Hw)].
  - eexists _, _, _. split; [by apply extract_run|done].
  - eexists _, _, _. split; [by eapply extract_no_output|done].
Qed.

(** The warnings and the progress reports of a call are those of the
    scan. *)
Lemma extract_log (input_file output_file : string) (n : Z) (w : world) (text : str) :
  can_read w input_file text →
  ∃ r w' log,
    extract_first_n_objects json input_file output_file n w = (r, w')
    ∧ stdout w' = stdout w ++ log
    ∧ warnings_of log = failures json 0 (first_lines n (readlines text))
    ∧ progress_of log = milestones json 0 (first_lines n (readlines text)).
Proof.
  intros Hread.
  destruct (extract_prints input_file output_file n w text Hread)
    as (r & w' & closing & Hrun & Hout & Hwarn & Hprog).
  exists r, w', ([Extracting n input_file] ++ scan_messages json n text ++ closing).
  split; [done|]. split; [done|].
  rewrite !warnings_of_app, !progress_of_app, Hwarn, Hprog, !app_nil_r.
  unfold scan_messages. by rewrite warnings_scan_log, progress_scan_log.
Qed.

End Messages.

(** C1. For every input file and every [n], when both files can be opened
    the array written to the output file holds exactly the objects of the
    lines among the first [n] that decode, one per such line and in their
    order, and the count the call reports as written is the number of
    those lines. *)
Theorem extract_writes_parsed_records (json : json_module)
    (input_file output_file : string) (n : Z) (w : world) (text : str) :
  can_read w input_file text →
  can_write w output_file →
  ∃ w' objects log,
    extract_first_n_objects json input_file output_file n w = (Returned PyNone, w')
    ∧ content <$> fs w' !! output_file = Some (dump json (PyList objects))
    ∧ Forall2 (λ obj line, loads json (strip line) = Decoded obj)
        objects (filter (λ line, parses json line) (first_lines n (readlines text)))
    ∧ stdout w' = stdout w ++ log ++ [Writing (len objects) output_file;
                                       Done (len objects) output_file]
    ∧ len objects
      = len (filter (λ line, parses json line) (first_lines n (readlines text))).
Proof.
  intros Hread Hwrite.
  eexists _, (sample json n text), ([Extracting n input_file] ++ scan_messages json n text).
  split; [by apply extract_run|]. cbn [fs stdout].
  split; [by rewrite lookup_insert_eq; unfold written_file; destruct (fs w !! output_file)|].
  split; [apply parsed_records_filter|].
  split; [by rewrite <- !app_assoc|].
  unfold len, sample. by rewrite parsed_records_length.
Qed.

Lemma extract_writes_parsed_records_witness :
  can_read (disk_with three_lines) input_name three_lines
  ∧ can_write (disk_with three_lines) output_name
  ∧ ∃ w' objects log,
      extract_first_n_objects Mini.json input_name output_name 3
        (disk_with three_lines) = (Returned PyNone, w')
      ∧ content <$> fs w' !! output_name = Some (dump Mini.json (PyList objects))
      ∧ Forall2 (λ obj line, loads Mini.json (strip line) = Decoded obj)
          objects
          (filter (λ line, parses Mini.json line) (first_lines 3 (readlines three_lines)))
      ∧ stdout w' = stdout (disk_with three_lines) ++ log
                      ++ [Writing (len objects) output_name; Done (len objects) output_name]
      ∧ len objects
        = len (filter (λ line, parses Mini.json line)
                 (first_lines 3 (readlines three_lines))).
Proof.
  assert (can_read (disk_with three_lines) input_name three_lines) as Hread.
  { exists (File true true three_lines). by vm_compute. }
  assert (can_write (disk_with three_lines) output_name) as Hwrite.
  { intros f Hf. vm_compute in Hf. discriminate. }
  split; [exact Hread|]. split; [exact Hwrite|].
  exact (extract_writes_parsed_records Mini.json input_name output_name 3
           (disk_with three_lines) three_lines Hread Hwrite).
Defined.

(** C2, as stated, fails: with a hundred lines of which the hundredth is
    malformed and [n = 100], line 100 is examined and no progress report
    is printed for it. *)
Lemma progress_skips_malformed_hundredth_line :
  ¬ progress_at_every_hundredth_line Mini.json input_name output_name 100
      (disk_with hundred_lines).
Proof.
  intros Hclaim.
  specialize (Hclaim hundred_lines 99%nat (lit "{bad json" ++ [LF])).
  assert (can_read (disk_with hundred_lines) input_name hundred_lines) as Hread.
  { exists (File true true hundred_lines). by vm_compute. }
  specialize (Hclaim Hread).
  assert (first_lines 100 (readlines hundred_lines) !! 99%nat
          = Some (lit "{bad json" ++ [LF])) as Hline by (by vm_compute).
  specialize (Hclaim Hline eq_refl).
  vm_compute in Hclaim.
  repeat (apply elem_of_cons in Hclaim as [Hclaim|Hclaim]; [discriminate|]).
  by apply elem_of_nil in Hclaim.
Qed.

(** C2, amended. For every input and every [n], a progress report is
    printed for an examined line exactly when its 1-based number is a
    multiple of 100 and the line decodes; malformed lines count toward the
    number but get a warning instead.  So an input of 250 lines that all
    decode, with [n = 250], gets exactly the two reports for lines 100 and
    200. *)
Theorem progress_on_decoded_hundredth_lines (json : json_module)
    (input_file output_file : string) (n : Z) (w : world) (text : str) :
  can_read w input_file text →
  ∃ r w' log,
    extract_first_n_objects json input_file output_file n w = (r, w')
    ∧ stdout w' = stdout w ++ log
    ∧ progress_of log = milestones json 0 (first_lines n (readlines text))
    ∧ (∀ k, k ∈ progress_of log ↔
            ∃ p line, first_lines n (readlines text) !! p = Some line
                      ∧ k = (Z.of_nat p + 1)%Z ∧ (k mod 100 = 0)%Z
                      ∧ parses json line = true)
    ∧ (Forall (λ line, parses json line = true) (readlines text) →
       length (readlines text) = 250%nat → n = 250%Z →
       progress_of log = [100%Z; 200%Z]).
Proof.
  intros Hread.
  destruct (extract_log json input_file output_file n w text Hread)
    as (r & w' & log & Hrun & Hout & _ & Hprog).
  exists r, w', log. split; [done|]. split; [done|]. split; [done|]. split.
  - intros k. rewrite Hprog, milestones_elem.
    split; intros (p & line & Hp & Hk & Hrest); exists p, line;
      (split; [done|]); (split; [lia|done]).
  - intros Hall Hlen ->. rewrite Hprog. unfold first_lines.
    rewrite take_ge by lia. rewrite milestones_all_parse by done.
    rewrite Hlen. by vm_compute.
Qed.

Lemma progress_on_decoded_hundredth_lines_witness :
  can_read (disk_with many_lines) input_name many_lines
  ∧ ∃ r w' log,
      extract_first_n_objects Mini.json input_name output_name 250
        (disk_with many_lines) = (r, w')
      ∧ stdout w' = stdout (disk_with many_lines) ++ log
      ∧ progress_of log
        = milestones Mini.json 0 (first_lines 250 (readlines many_lines))
      ∧ (∀ k, k ∈ progress_of log ↔
              ∃ p line, first_lines 250 (readlines many_lines) !! p = Some line
                        ∧ k = (Z.of_nat p + 1)%Z ∧ (k mod 100 = 0)%Z
                        ∧ parses Mini.json line = true)
      ∧ (Forall (λ line, parses Mini.json line = true) (readlines many_lines) →
         length (readlines many_lines) = 250%nat → 250%Z = 250%Z →
         progress_of log = [100%Z; 200%Z]).
Proof.
  assert (can_read (disk_with many_lines) input_name many_lines) as Hread.
  { exists (File true true many_lines). by vm_compute. }
  split; [exact Hread|].
  exact (progress_on_decoded_hundredth_lines Mini.json input_name output_name 250
           (disk_with many_lines) many_lines Hread).
Defined.

(** With 250 lines that decode and [n = 250] the reports are those for
    lines 100 and 200, and the array has 250 elements. *)
Example progress_of_250_lines :
  progress_of
    (stdout (extract_first_n_objects Mini.json input_name output_name 250
               (disk_with many_lines)).2)
  = [100%Z; 200%Z]
  ∧ content <$> fs (extract_first_n_objects Mini.json input_name output_name 250
                      (disk_with many_lines)).2 !! output_name
    = Some (dump Mini.json (PyList (replicate 250 PyNone))).
Proof. split; by vm_compute. Qed.

(** C3, as stated, fails: on the three-line input the call returns [None],
    not the number of records it wrote. *)
Lemma returns_none_not_count :
  ¬ returns_written_count Mini.json input_name output_name 3 (disk_with three_lines).
Proof.
  intros (objects & w' & Hrun & _).
  assert (can_read (disk_with three_lines) input_name three_lines) as Hread.
  { exists (File true true three_lines). by vm_compute. }
  assert (can_write (disk_with three_lines) output_name) as Hwrite.
  { intros f Hf. vm_compute in Hf. discriminate. }
  rewrite (extract_run Mini.json _ _ _ _ _ Hread Hwrite) in Hrun.
  discriminate.
Qed.

(** C3, amended. The function returns no count: whenever a call returns,
    it returns [None]; the number of records written, which is the length
    of the array in the output file, is the count printed in the two
    closing lines. *)
Theorem returns_none_and_prints_count (json : json_module)
    (input_file output_file : string) (n : Z) (w w' : world) (r : value) :
  extract_first_n_objects json input_file output_file n w = (Returned r, w') →
  r = PyNone
  ∧ ∃ objects log,
      content <$> fs w' !! output_file = Some (dump json (PyList objects))
      ∧ stdout w' = stdout w ++ log ++ [Writing (len objects) output_file;
                                         Done (len objects) output_file].
Proof.
  intros Hrun.
  destruct (can_read_cases w input_file) as [(text & Hread)|(e & Hopen)].
  2:{ rewrite (extract_no_input json _ _ _ _ _ _ Hopen) in Hrun. discriminate. }
  destruct (can_write_cases w output_file) as [Hwrite|(f & Hout & Hw)].
  2:{ rewrite (extract_no_output json _ _ _ _ _ _ Hread Hout Hw) in Hrun.
      discriminate. }
  rewrite (extract_run json _ _ _ _ _ Hread Hwrite) in Hrun.
  injection Hrun as <- <-. split; [done|].
  exists (sample json n text), ([Extracting n input_file] ++ scan_messages json n text).
  cbn [fs stdout]. rewrite lookup_insert_eq. split.
  - unfold written_file. by destruct (fs w !! output_file).
  - by rewrite <- !app_assoc.
Qed.

Lemma returns_none_and_prints_count_witness :
  let run := extract_first_n_objects Mini.json input_name output_name 3
               (disk_with three_lines) in
  run = (Returned PyNone, run.2)
  ∧ PyNone = PyNone
  ∧ ∃ objects log,
      content <$> fs run.2 !! output_name = Some (dump Mini.json (PyList objects))
      ∧ stdout run.2 = stdout (disk_with three_lines) ++ log
                         ++ [Writing (len objects) output_name;
                             Done (len objects) output_name].
Proof.
  intros run.
  assert (run = (Returned PyNone, run.2)) as Hrun by (by vm_compute).
  split; [exact Hrun|].
  exact (returns_none_and_prints_count Mini.json input_name output_name 3
           (disk_with three_lines) run.2 PyNone Hrun).
Defined.

(** C4. The cutoff counts lines read, not lines decoded: every one of the
    first [n] lines gives either a record or a warning, so the records and
    the warnings together number [min n (number of lines)]; and a malformed
    line among the first [n] uses one of the [n] places: the records are
    those of the input without that line, cut off after [n - 1] lines. *)
Theorem cutoff_counts_lines_read (json : json_module)
    (input_file output_file : string) (n : Z) (w : world) (text : str) :
  can_read w input_file text →
  can_write w output_file →
  ∃ w' objects log,
    extract_first_n_objects json input_file output_file n w = (Returned PyNone, w')
    ∧ content <$> fs w' !! output_file = Some (dump json (PyList objects))
    ∧ stdout w' = stdout w ++ log
    ∧ objects = parsed_records json (take (Z.to_nat n) (readlines text))
    ∧ (length objects + length (warnings_of log))%nat
      = (Z.to_nat n `min` length (readlines text))%nat
    ∧ (∀ p line,
         (Z.of_nat p < n)%Z →
         readlines text !! p = Some line →
         parses json line = false →
         objects = parsed_records json (take (Z.to_nat (n - 1)) (delete p (readlines text)))).
Proof.
  intros Hread Hwrite.
  eexists _, (sample json n text), _.
  split; [by apply extract_run|]. cbn [fs stdout].
  split; [by rewrite lookup_insert_eq; unfold written_file; destruct (fs w !! output_file)|].
  split; [done|]. split; [done|]. split.
  - rewrite !warnings_of_app. cbn. rewrite app_nil_r.
    unfold scan_messages, sample. rewrite warnings_scan_log, records_and_failures.
    unfold first_lines. apply length_take.
  - intros p line Hp Hline Hfail. by eapply skipped_line.
Qed.

Lemma cutoff_counts_lines_read_witness :
  can_read (disk_with three_lines) input_name three_lines
  ∧ can_write (disk_with three_lines) output_name
  ∧ ∃ w' objects log,
      extract_first_n_objects Mini.json input_name output_name 2
        (disk_with three_lines) = (Returned PyNone, w')
      ∧ content <$> fs w' !! output_name = Some (dump Mini.json (PyList objects))
      ∧ stdout w' = stdout (disk_with three_lines) ++ log
      ∧ objects = parsed_records Mini.json (take (Z.to_nat 2) (readlines three_lines))
      ∧ (length objects + length (warnings_of log))%nat
        = (Z.to_nat 2 `min` length (readlines three_lines))%nat
      ∧ (∀ p line,
           (Z.of_nat p < 2)%Z →
           readlines three_lines !! p = Some line →
           parses Mini.json line = false →
           objects = parsed_records Mini.json
                       (take (Z.to_nat (2 - 1)) (delete p (readlines three_lines)))).
Proof.
  assert (can_read (disk_with three_lines) input_name three_lines) as Hread.
  { exists (File true true three_lines). by vm_compute. }
  assert (can_write (disk_with three_lines) output_name) as Hwrite.
  { intros f Hf. vm_compute in Hf. discriminate. }
  split; [exact Hread|]. split; [exact Hwrite|].
  exact (cutoff_counts_lines_read Mini.json input_name output_name 2
           (disk_with three_lines) three_lines Hread Hwrite).
Defined.

(** With [n = 2] the malformed second line takes the second place: one
    record is written although the third line decodes. *)
Example cutoff_at_two_of_three :
  content <$> fs (extract_first_n_objects Mini.json input_name output_name 2
                    (disk_with three_lines)).2 !! output_name
  = Some (dump Mini.json (PyList [PyList [PyInt 1; PyInt 2]])).
Proof. by vm_compute. Qed.

(** C5. Order preservation: for two lines at 0-based positions
    [p1 < p2 < n] that both decode, the record of each is in the output
    array at the slot of its line (the number of earlier lines that
    decode), and the slot of [p1] comes before the slot of [p2]. *)
Theorem records_keep_line_order (json : json_module)
    (input_file output_file : string) (n : Z) (w : world) (text : str)
    (p1 p2 : nat) (line1 line2 : str) (obj1 obj2 : value) :
  can_read w input_file text →
  can_write w output_file →
  (p1 < p2)%nat → (Z.of_nat p2 < n)%Z →
  readlines text !! p1 = Some line1 →
  readlines text !! p2 = Some line2 →
  loads json (strip line1) = Decoded obj1 →
  loads json (strip line2) = Decoded obj2 →
  ∃ w' objects j1 j2,
    extract_first_n_objects json input_file output_file n w = (Returned PyNone, w')
    ∧ content <$> fs w' !! output_file = Some (dump json (PyList objects))
    ∧ j1 = slot json (readlines text) p1
    ∧ j2 = slot json (readlines text) p2
    ∧ objects !! j1 = Some obj1
    ∧ objects !! j2 = Some obj2
    ∧ (j1 < j2)%nat.
Proof.
  intros Hread Hwrite Hlt Hn Hp1 Hp2 Hobj1 Hobj2.
  eexists _, (sample json n text), _, _.
  split; [by apply extract_run|]. cbn [fs stdout].
  split; [by rewrite lookup_insert_eq; unfold written_file; destruct (fs w !! output_file)|].
  split; [done|]. split; [done|].
  unfold sample.
  rewrite <- (slot_first_lines json n (readlines text) p1) by lia.
  rewrite <- (slot_first_lines json n (readlines text) p2) by lia.
  assert (first_lines n (readlines text) !! p1 = Some line1) as Hq1.
  { apply first_lines_lookup. split; [done|lia]. }
  assert (first_lines n (readlines text) !! p2 = Some line2) as Hq2.
  { apply first_lines_lookup. split; [done|lia]. }
  split; [by apply (slot_lookup json _ _ line1)|].
  split; [by apply (slot_lookup json _ _ line2)|].
  by apply (slot_lt json _ _ _ line1 obj1).
Qed.

Lemma records_keep_line_order_witness :
  can_read (disk_with three_lines) input_name three_lines
  ∧ can_write (disk_with three_lines) output_name
  ∧ (0 < 2)%nat ∧ (Z.of_nat 2 < 3)%Z
  ∧ readlines three_lines !! 0%nat = Some (lit "[1, 2]" ++ [LF])
  ∧ readlines three_lines !! 2%nat = Some (lit "[3]" ++ [LF])
  ∧ loads Mini.json (strip (lit "[1, 2]" ++ [LF])) = Decoded (PyList [PyInt 1; PyInt 2])
  ∧ loads Mini.json (strip (lit "[3]" ++ [LF])) = Decoded (PyList [PyInt 3])
  ∧ ∃ w' objects j1 j2,
      extract_first_n_objects Mini.json input_name output_name 3
        (disk_with three_lines) = (Returned PyNone, w')
      ∧ content <$> fs w' !! output_name = Some (dump Mini.json (PyList objects))
      ∧ j1 = slot Mini.json (readlines three_lines) 0
      ∧ j2 = slot Mini.json (readlines three_lines) 2
      ∧ objects !! j1 = Some (PyList [PyInt 1; PyInt 2])
      ∧ objects !! j2 = Some (PyList [PyInt 3])
      ∧ (j1 < j2)%nat.
Proof.
  assert (can_read (disk_with three_lines) input_name three_lines) as Hread.
  { exists (File true true three_lines). by vm_compute. }
  assert (can_write (disk_with three_lines) output_name) as Hwrite.
  { intros f Hf. vm_compute in Hf. discriminate. }
  assert (0 < 2)%nat as Hlt by lia.
  assert (Z.of_nat 2 < 3)%Z as Hn by lia.
  assert (readlines three_lines !! 0%nat = Some (lit "[1, 2]" ++ [LF])) as Hp1
    by (by vm_compute).
  assert (readlines three_lines !! 2%nat = Some (lit "[3]" ++ [LF])) as Hp2
    by (by vm_compute).
  assert (loads Mini.json (strip (lit "[1, 2]" ++ [LF]))
          = Decoded (PyList [PyInt 1; PyInt 2])) as Hobj1 by (by vm_compute).
  assert (loads Mini.json (strip (lit "[3]" ++ [LF]))
          = Decoded (PyList [PyInt 3])) as Hobj2 by (by vm_compute).
  repeat (split; [assumption|]).
  exact (records_keep_line_order Mini.json input_name output_name 3
           (disk_with three_lines) three_lines 0 2 _ _ _ _
           Hread Hwrite Hlt Hn Hp1 Hp2 Hobj1 Hobj2).
Defined.

(** C6. When the input can be read, every line among the first [n] that
    fails to decode gets exactly one warning, which carries the 1-based
    number of the line in the file and the text of the decoding error;
    the warnings are those and no others, in the order of the lines, so an
    earlier malformed line does not shift the number of a later one.
    Nothing is added to the records for such a line: when the output can
    be written, the array holds the records of the lines that decode, as
    many as there are such lines.  No other error is recovered: the call
    raises the exception of [open] when the input or the output cannot be
    opened. *)
Theorem malformed_line_warned_and_skipped (json : json_module)
    (input_file output_file : string) (n : Z) (w : world) (text : str) :
  can_read w input_file text →
  (∃ r w' log,
     extract_first_n_objects json input_file output_file n w = (r, w')
     ∧ stdout w' = stdout w ++ log
     ∧ warnings_of log = failures json 0 (first_lines n (readlines text))
     ∧ (∀ p line e,
          (Z.of_nat p < n)%Z →
          readlines text !! p = Some line →
          loads json (strip line) = JSONDecodeError e →
          filter (λ we, we.1 = (Z.of_nat p + 1)%Z) (warnings_of log)
          = [((Z.of_nat p + 1)%Z, e)])
     ∧ (can_write w output_file →
        r = Returned PyNone
        ∧ ∃ objects,
            content <$> fs w' !! output_file = Some (dump json (PyList objects))
            ∧ Forall2 (λ obj line, loads json (strip line) = Decoded obj)
                objects
                (filter (λ line, parses json line) (first_lines n (readlines text))))
     ∧ (¬ can_write w output_file →
        r = Raised (PermissionError output_file) ∧ fs w' = fs w))
  ∧ (∀ w0 e w1,
       open_read input_file w0 = (Raised e, w1) →
       (extract_first_n_objects json input_file output_file n w0).1 = Raised e).
Proof.
  intros Hread. split.
  - assert (∀ p line e,
              (Z.of_nat p < n)%Z →
              readlines text !! p = Some line →
              loads json (strip line) = JSONDecodeError e →
              filter (λ we, we.1 = (Z.of_nat p + 1)%Z)
                (failures json 0 (first_lines n (readlines text)))
              = [((Z.of_nat p + 1)%Z, e)]) as Honce.
    { intros p line e Hp Hline He.
      apply (failures_once json 0 (first_lines n (readlines text)) p line e); [|done].
      apply first_lines_lookup. by split. }
    destruct (can_write_cases w output_file) as [Hwrite|(f & Hout & Hw)].
    + (* both files open *)
      eexists _, _, _.
      split; [by apply extract_run|]. cbn [fs stdout].
      split; [done|].
      rewrite !warnings_of_app. cbn. rewrite app_nil_r.
      unfold scan_messages. rewrite warnings_scan_log.
      split; [done|]. split; [exact Honce|]. split; [|done].
      intros _. split; [done|]. exists (sample json n text). split.
      * rewrite lookup_insert_eq. unfold written_file.
        by destruct (fs w !! output_file).
      * apply parsed_records_filter.
    + (* the output file is there and may not be written *)
      eexists _, _, _.
      split; [by eapply extract_no_output|]. cbn [fs stdout].
      split; [done|].
      rewrite !warnings_of_app. cbn. rewrite app_nil_r.
      unfold scan_messages. rewrite warnings_scan_log.
      split; [done|]. split; [exact Honce|]. split; [|done].
      intros Hwrite. specialize (Hwrite f Hout). congruence.
  - intros w0 e w1 Hopen. by rewrite (extract_no_input json _ _ _ _ _ _ Hopen).
Qed.

Lemma malformed_line_warned_and_skipped_witness :
  can_read (disk_with three_lines) input_name three_lines
  ∧ (∃ r w' log,
       extract_first_n_objects Mini.json input_name output_name 3
         (disk_with three_lines) = (r, w')
       ∧ stdout w' = stdout (disk_with three_lines) ++ log
       ∧ warnings_of log = failures Mini.json 0 (first_lines 3 (readlines three_lines))
       ∧ (∀ p line e,
            (Z.of_nat p < 3)%Z →
            readlines three_lines !! p = Some line →
            loads Mini.json (strip line) = JSONDecodeError e →
            filter (λ we, we.1 = (Z.of_nat p + 1)%Z) (warnings_of log)
            = [((Z.of_nat p + 1)%Z, e)])
       ∧ (can_write (disk_with three_lines) output_name →
          r = Returned PyNone
          ∧ ∃ objects,
              content <$> fs w' !! output_name = Some (dump Mini.json (PyList objects))
              ∧ Forall2 (λ obj line, loads Mini.json (strip line) = Decoded obj)
                  objects
                  (filter (λ line, parses Mini.json line)
                     (first_lines 3 (readlines three_lines))))
       ∧ (¬ can_write (disk_with three_lines) output_name →
          r = Raised (PermissionError output_name)
          ∧ fs w' = fs (disk_with three_lines)))
    ∧ (∀ w0 e w1,
         open_read input_name w0 = (Raised e, w1) →
         (extract_first_n_objects Mini.json input_name output_name 3 w0).1 = Raised e).
Proof.
  assert (can_read (disk_with three_lines) input_name three_lines) as Hread.
  { exists (File true true three_lines). by vm_compute. }
  split; [exact Hread|].
  exact (malformed_line_warned_and_skipped Mini.json input_name output_name 3
           (disk_with three_lines) three_lines Hread).
Defined.

(** What is printed for the three-line input with [n = 3]. *)
Example printed_for_three_lines :
  map render (stdout (extract_first_n_objects Mini.json input_name output_name 3
                        (disk_with three_lines)).2)
  = [lit "Extracting first 3 JSON objects from arxiv-metadata-oai-snapshot.json...";
     lit "Warning: Failed to parse line 2: Expecting value";
     lit "Writing 2 objects to arxiv_sample.json...";
     lit "Done! Extracted 2 objects to arxiv_sample.json"].
Proof. by vm_compute. Qed.

(** The three-line input with [n = 3]: one warning, for line 2, and the
    records of lines 1 and 3. *)
Example warning_for_line_two :
  let w' := (extract_first_n_objects Mini.json input_name output_name 3
               (disk_with three_lines)).2 in
  warnings_of (stdout w') = [(2%Z, lit "Expecting value")]
  ∧ content <$> fs w' !! output_name
    = Some (dump Mini.json (PyList [PyList [PyInt 1; PyInt 2]; PyList [PyInt 3]])).
Proof. split; by vm_compute. Qed.

(** C7. For every [n ≤ 0], every input file that can be read (empty or
    not), and every decoder, the call writes the empty array to the output
    file.  None of the lines is examined: the loop breaks at the first one,
    so none is decoded, and the call prints its opening and closing lines
    only, with no warning and no progress report. *)
Theorem nonpositive_n_writes_empty_array (json : json_module)
    (input_file output_file : string) (n : Z) (w : world) (text : str) :
  can_read w input_file text →
  can_write w output_file →
  (n ≤ 0)%Z →
  ∃ w',
    extract_first_n_objects json input_file output_file n w = (Returned PyNone, w')
    ∧ first_lines n (readlines text) = []
    ∧ content <$> fs w' !! output_file = Some (dump json (PyList []))
    ∧ stdout w' = stdout w ++ [Extracting n input_file;
                                Writing 0 output_file; Done 0 output_file].
Proof.
  intros Hread Hwrite Hn.
  eexists. split; [by apply extract_run|]. cbn [fs stdout].
  assert (first_lines n (readlines text) = []) as Hnone.
  { unfold first_lines. by replace (Z.to_nat n) with 0%nat by lia. }
  split; [done|].
  unfold sample, scan_messages. rewrite Hnone. cbn.
  split; [|done].
  rewrite lookup_insert_eq. unfold written_file. by destruct (fs w !! output_file).
Qed.

Lemma nonpositive_n_writes_empty_array_witness :
  can_read (disk_with three_lines) input_name three_lines
  ∧ can_write (disk_with three_lines) output_name
  ∧ (0 ≤ 0)%Z
  ∧ ∃ w',
      extract_first_n_objects Mini.json input_name output_name 0
        (disk_with three_lines) = (Returned PyNone, w')
      ∧ first_lines 0 (readlines three_lines) = []
      ∧ content <$> fs w' !! output_name = Some (dump Mini.json (PyList []))
      ∧ stdout w' = stdout (disk_with three_lines)
                      ++ [Extracting 0 input_name;
                          Writing 0 output_name; Done 0 output_name].
Proof.
  assert (can_read (disk_with three_lines) input_name three_lines) as Hread.
  { exists (File true true three_lines). by vm_compute. }
  assert (can_write (disk_with three_lines) output_name) as Hwrite.
  { intros f Hf. vm_compute in Hf. discriminate. }
  assert (0 ≤ 0)%Z as Hn by lia.
  split; [exact Hread|]. split; [exact Hwrite|]. split; [exact Hn|].
  exact (nonpositive_n_writes_empty_array Mini.json input_name output_name 0
           (disk_with three_lines) three_lines Hread Hwrite Hn).
Defined.

(** The empty array is written as [[]]. *)
Example empty_array_text : dump Mini.json (PyList []) = lit "[]".
Proof. reflexivity. Qed.

(** C8. If the input file cannot be opened for reading, the exception of
    [open] leaves the call: the files are what they were, and nothing is
    printed after the opening line, so the write was not reached. *)
Theorem unreadable_input_leaves_files_alone (json : json_module)
    (input_file output_file : string) (n : Z) (w w1 : world) (e : OSError) :
  open_read input_file w = (Raised e, w1) →
  ∃ w',
    extract_first_n_objects json input_file output_file n w = (Raised e, w')
    ∧ fs w' = fs w
    ∧ stdout w' = stdout w ++ [Extracting n input_file].
Proof.
  intros Hopen. eexists. split; [by eapply extract_no_input|]. done.
Qed.

Lemma unreadable_input_leaves_files_alone_witness :
  open_read input_name empty_disk = (Raised (FileNotFoundError input_name), empty_disk)
  ∧ ∃ w',
      extract_first_n_objects Mini.json input_name output_name 100 empty_disk
      = (Raised (FileNotFoundError input_name), w')
      ∧ fs w' = fs empty_disk
      ∧ stdout w' = stdout empty_disk ++ [Extracting 100 input_name].
Proof.
  assert (open_read input_name empty_disk
          = (Raised (FileNotFoundError input_name), empty_disk)) as Hopen
    by reflexivity.
  split; [exact Hopen|].
  exact (unreadable_input_leaves_files_alone Mini.json input_name output_name 100
           empty_disk empty_disk _ Hopen).
Defined.

(** C10. A line among the first [n] that is empty or all whitespace strips
    to the empty string, which [json.loads] rejects; so the line gets one
    warning under its 1-based number, adds no record, and still uses one
    of the [n] places: the array written holds the records of the input
    without that line, cut off after [n - 1] lines. *)
Theorem blank_line_is_a_failure (json : json_module)
    (input_file output_file : string) (n : Z) (w : world) (text : str)
    (p : nat) (line e : str) :
  can_read w input_file text →
  can_write w output_file →
  loads json [] = JSONDecodeError e →
  (Z.of_nat p < n)%Z →
  readlines text !! p = Some line →
  Forall (λ ch, Py_UNICODE_ISSPACE ch = true) line →
  ∃ w' objects log,
    extract_first_n_objects json input_file output_file n w = (Returned PyNone, w')
    ∧ loads json (strip line) = JSONDecodeError e
    ∧ stdout w' = stdout w ++ log
    ∧ filter (λ we, we.1 = (Z.of_nat p + 1)%Z) (warnings_of log)
      = [((Z.of_nat p + 1)%Z, e)]
    ∧ content <$> fs w' !! output_file = Some (dump json (PyList objects))
    ∧ objects = parsed_records json (take (Z.to_nat (n - 1)) (delete p (readlines text))).
Proof.
  intros Hread Hwrite Hempty Hp Hline Hblank.
  assert (loads json (strip line) = JSONDecodeError e) as Hfail
    by (by rewrite strip_whitespace).
  eexists _, (sample json n text), _.
  split; [by apply extract_run|]. cbn [fs stdout].
  split; [done|]. split; [done|]. split.
  - rewrite !warnings_of_app. cbn. rewrite app_nil_r.
    unfold scan_messages. rewrite warnings_scan_log.
    apply (failures_once json 0 (first_lines n (readlines text)) p line e); [|done].
    apply first_lines_lookup. by split.
  - split; [by rewrite lookup_insert_eq; unfold written_file; destruct (fs w !! output_file)|].
    apply (skipped_line json n (readlines text) p line); [done|done|].
    unfold parses. by rewrite Hfail.
Qed.

Lemma blank_line_is_a_failure_witness :
  can_read (disk_with blank_second_line) input_name blank_second_line
  ∧ can_write (disk_with blank_second_line) output_name
  ∧ loads Mini.json [] = JSONDecodeError (lit "Expecting value")
  ∧ (Z.of_nat 1 < 3)%Z
  ∧ readlines blank_second_line !! 1%nat = Some (lit "   " ++ [LF])
  ∧ Forall (λ ch, Py_UNICODE_ISSPACE ch = true) (lit "   " ++ [LF])
  ∧ ∃ w' objects log,
      extract_first_n_objects Mini.json input_name output_name 3
        (disk_with blank_second_line) = (Returned PyNone, w')
      ∧ loads Mini.json (strip (lit "   " ++ [LF])) = JSONDecodeError (lit "Expecting value")
      ∧ stdout w' = stdout (disk_with blank_second_line) ++ log
      ∧ filter (λ we, we.1 = (Z.of_nat 1 + 1)%Z) (warnings_of log)
        = [((Z.of_nat 1 + 1)%Z, lit "Expecting value")]
      ∧ content <$> fs w' !! output_name = Some (dump Mini.json (PyList objects))
      ∧ objects = parsed_records Mini.json
                    (take (Z.to_nat (3 - 1)) (delete 1 (readlines blank_second_line))).
Proof.
  assert (can_read (disk_with blank_second_line) input_name blank_second_line) as Hread.
  { exists (File true true blank_second_line). by vm_compute. }
  assert (can_write (disk_with blank_second_line) output_name) as Hwrite.
  { intros f Hf. vm_compute in Hf. discriminate. }
  assert (loads Mini.json [] = JSONDecodeError (lit "Expecting value")) as Hempty
    by reflexivity.
  assert (Z.of_nat 1 < 3)%Z as Hp by lia.
  assert (readlines blank_second_line !! 1%nat = Some (lit "   " ++ [LF])) as Hline
    by (by vm_compute).
  assert (Forall (λ ch, Py_UNICODE_ISSPACE ch = true) (lit "   " ++ [LF])) as Hblank
    by (repeat constructor).
  repeat (split; [assumption|]).
  exact (blank_line_is_a_failure Mini.json input_name output_name 3
           (disk_with blank_second_line) blank_second_line 1 _ _
           Hread Hwrite Hempty Hp Hline Hblank).
Defined.

(** ** Further properties of [extract_first_n_objects] *)

Section Outcomes.

Variable json : json_module.

(** X1. A call changes no file but the output file, whether it returns or
    raises: every other path holds after the call what it held before. *)
Theorem other_files_untouched
    (input_file output_file path : string) (n : Z) (w : world) :
  path ≠ output_file →
  fs (extract_first_n_objects json input_file output_file n w).2 !! path
  = fs w !! path.
Proof.
  intros Hpath.
  destruct (can_read_cases w input_file) as [(text & Hread)|(e & Hopen)].
  - destruct (can_write_cases w output_file) as [Hwrite|(f & Hout & Hw)].
    + rewrite (extract_run json _ _ _ _ _ Hread Hwrite). cbn [snd fs].
      by rewrite lookup_insert_ne.
    + by rewrite (extract_no_output json _ _ _ _ _ _ Hread Hout Hw).
  - by rewrite (extract_no_input json _ _ _ _ _ _ Hopen).
Qed.



End Outcomes.

Lemma other_files_untouched_witness :
  input_name ≠ output_name
  ∧ fs (extract_first_n_objects Mini.json input_name output_name 3
          (disk_with three_lines)).2 !! input_name
    = fs (disk_with three_lines) !! input_name.
Proof.
  assert (input_name ≠ output_name) as Hpath by discriminate.
  split; [exact Hpath|].
  exact (other_files_untouched Mini.json input_name output_name input_name 3
           (disk_with three_lines) Hpath).
Defined.

Section Repeated.

Variable json : json_module.

Lemma written_file_content (w : world) (path : string) (text : str) :
  content (written_file w path text) = text.
Proof. unfold written_file. by destruct (fs w !! path). Qed.

(** After a call that returned, the output file can be written again. *)
Lemma written_file_writable (w : world) (path : string) (text : str) :
  can_write w path → writable (written_file w path text) = true.
Proof.
  unfold can_write, written_file. intros Hwrite.
  destruct (fs w !! path) as [f|]; [cbn; by apply Hwrite|done].
Qed.

(** X4. Running the function twice with the same arguments, on an input
    file that is not the output file, gives the same files as running it
    once: the second call returns too and rewrites the output file with
    the text it already holds. *)
Theorem second_call_changes_no_file
    (input_file output_file : string) (n : Z) (w : world) (text : str) :
  can_read w input_file text →
  can_write w output_file →
  input_file ≠ output_file →
  ∃ w1 w2,
    extract_first_n_objects json input_file output_file n w = (Returned PyNone, w1)
    ∧ extract_first_n_objects json input_file output_file n w1 = (Returned PyNone, w2)
    ∧ fs w2 = fs w1.
Proof.
  intros Hread Hwrite Hne.
  pose proof (extract_run json input_file output_file n w text Hread Hwrite) as Hrun1.
  remember (dump json (PyList (sample json n text))) as out eqn:Hout.
  match type of Hrun1 with _ = (_, ?x) => remember x as w1 eqn:Hw1 end.
  assert (fs w1 !! output_file = Some (written_file w output_file out)) as Hout1.
  { rewrite Hw1. cbn [fs]. by rewrite lookup_insert_eq. }
  assert (can_read w1 input_file text) as Hread1.
  { destruct Hread as (f & Hf & Hr & Hc). exists f.
    split; [|done]. rewrite Hw1. cbn [fs]. by rewrite lookup_insert_ne. }
  assert (can_write w1 output_file) as Hwrite1.
  { intros f Hf. rewrite Hout1 in Hf. injection Hf as <-.
    by apply written_file_writable. }
  assert (written_file w1 output_file out = written_file w output_file out) as Hsame.
  { unfold written_file at 1. rewrite Hout1.
    unfold written_file. by destruct (fs w !! output_file). }
  pose proof (extract_run json input_file output_file n w1 text Hread1 Hwrite1) as Hrun2.
  rewrite <- Hout, Hsame in Hrun2.
  eexists w1, _. split; [exact Hrun1|]. split; [exact Hrun2|].
  cbn [fs]. by apply insert_id.
Qed.

End Repeated.

Lemma second_call_changes_no_file_witness :
  can_read (disk_with three_lines) input_name three_lines
  ∧ can_write (disk_with three_lines) output_name
  ∧ input_name ≠ output_name
  ∧ ∃ w1 w2,
      extract_first_n_objects Mini.json input_name output_name 3
        (disk_with three_lines) = (Returned PyNone, w1)
      ∧ extract_first_n_objects Mini.json input_name output_name 3 w1
        = (Returned PyNone, w2)
      ∧ fs w2 = fs w1.
Proof.
  assert (can_read (disk_with three_lines) input_name three_lines) as Hread.
  { exists (File true true three_lines). by vm_compute. }
  assert (can_write (disk_with three_lines) output_name) as Hwrite.
  { intros f Hf. vm_compute in Hf. discriminate. }
  assert (input_name ≠ output_name) as Hne by discriminate.
  split; [exact Hread|]. split; [exact Hwrite|]. split; [exact Hne|].
  exact (second_call_changes_no_file Mini.json input_name output_name 3
           (disk_with three_lines) three_lines Hread Hwrite Hne).
Defined.

(** When the output file is the input file the second call reads what the
    first one wrote: on the three-line input the files differ. *)
Example second_call_in_place_differs :
  let w1 := (extract_first_n_objects Mini.json input_name input_name 3
               (disk_with three_lines)).2 in
  let w2 := (extract_first_n_objects Mini.json input_name input_name 3 w1).2 in
  fs w2 ≠ fs w1.
Proof.
  intros w1 w2 Heq.
  assert (content <$> fs w2 !! input_name = content <$> fs w1 !! input_name) as Hc
    by (by rewrite Heq).
  vm_compute in Hc. discriminate.
Qed.

Section Sizes.

Variable json : json_module.

Lemma output_content (w : world) (path : string) (text : str) :
  content <$> (<[path := written_file w path text]> (fs w)) !! path = Some text.
Proof. by rewrite lookup_insert_eq; cbn; rewrite written_file_content. Qed.

Lemma sample_prefix (n m : Z) (text : str) :
  (n ≤ m)%Z → sample json n text `prefix_of` sample json m text.
Proof.
  intros Hnm. unfold sample, first_lines, parsed_records.
  replace (take (Z.to_nat n) (readlines text))
    with (take (Z.to_nat n) (take (Z.to_nat m) (readlines text)))
    by (rewrite take_take; f_equal; lia).
  rewrite <- (take_drop (Z.to_nat n) (take (Z.to_nat m) (readlines text))) at 2.
  rewrite omap_app. by eexists.
Qed.

Lemma sample_all (n : Z) (text : str) :
  (len (readlines text) ≤ n)%Z →
  sample json n text = parsed_records json (readlines text).
Proof.
  intros Hn. unfold sample, first_lines, len in *. by rewrite take_ge by lia.
Qed.

Lemma sample_length (n : Z) (text : str) :
  (length (sample json n text) ≤ Z.to_nat n `min` length (readlines text))%nat.
Proof.
  unfold sample. rewrite parsed_records_length.
  etrans; [apply length_filter|]. unfold first_lines. by rewrite length_take.
Qed.

(** When every line decodes there is a record for each and no failure. *)
Lemma all_parse_records (i : Z) (lines : list str) :
  Forall (λ line, parses json line = true) lines →
  Forall2 (λ obj line, loads json (strip line) = Decoded obj)
    (parsed_records json lines) lines
  ∧ failures json i lines = [].
Proof.
  intros Hall. revert i.
  induction Hall as [|line rest Hline _ IH]; intros i; [by split; [constructor|]|].
  destruct (IH (i + 1)%Z) as [Hrec Hfail].
  unfold parsed_records in *. cbn [omap list_omap failures].
  unfold parses in Hline. unfold decoded_value at 1, decode_error.
  destruct (loads json (strip line)) as [obj|e] eqn:Hobj; [|discriminate].
  split; [by constructor|done].
Qed.

(** X5. With [n] at least the number of lines of the input, the scan ends
    at the end of the file: the array holds the records of all the lines
    that decode, and the files are the same for every larger [n]. *)
Theorem n_past_the_end_takes_whole_file
    (input_file output_file : string) (n : Z) (w : world) (text : str) :
  can_read w input_file text →
  can_write w output_file →
  (len (readlines text) ≤ n)%Z →
  ∃ w' objects,
    extract_first_n_objects json input_file output_file n w = (Returned PyNone, w')
    ∧ content <$> fs w' !! output_file = Some (dump json (PyList objects))
    ∧ Forall2 (λ obj line, loads json (strip line) = Decoded obj)
        objects (filter (λ line, parses json line) (readlines text))
    ∧ ∀ m, (n ≤ m)%Z →
        fs (extract_first_n_objects json input_file output_file m w).2 = fs w'.
Proof.
  intros Hread Hwrite Hn.
  eexists _, (sample json n text).
  split; [by apply extract_run|]. cbn [fs].
  split; [apply output_content|].
  split; [rewrite sample_all by done; apply parsed_records_filter|].
  intros m Hm. rewrite (extract_run json _ _ _ _ _ Hread Hwrite). cbn [snd fs].
  by rewrite !sample_all by lia.
Qed.

(** X6. Asking for more lines only adds records at the end: for [n ≤ m]
    the array written for [n] is a prefix of the array written for [m]. *)
Theorem larger_n_extends_the_array
    (input_file output_file : string) (n m : Z) (w : world) (text : str) :
  can_read w input_file text →
  can_write w output_file →
  (n ≤ m)%Z →
  ∃ wn wm objects more,
    extract_first_n_objects json input_file output_file n w = (Returned PyNone, wn)
    ∧ extract_first_n_objects json input_file output_file m w = (Returned PyNone, wm)
    ∧ content <$> fs wn !! output_file = Some (dump json (PyList objects))
    ∧ content <$> fs wm !! output_file = Some (dump json (PyList (objects ++ more)))
    ∧ Forall2 (λ obj line, loads json (strip line) = Decoded obj)
        (objects ++ more)
        (filter (λ line, parses json line) (first_lines m (readlines text))).
Proof.
  intros Hread Hwrite Hnm.
  destruct (sample_prefix n m text Hnm) as [more Hmore].
  eexists _, _, (sample json n text), more.
  split; [by apply extract_run|]. split; [by apply extract_run|]. cbn [fs].
  split; [apply output_content|]. rewrite <- Hmore.
  split; [apply output_content|]. apply parsed_records_filter.
Qed.

(** X7. The array never has more than [n] elements, nor more elements
    than the input has lines. *)
Theorem array_length_bounded
    (input_file output_file : string) (n : Z) (w : world) (text : str) :
  can_read w input_file text →
  can_write w output_file →
  ∃ w' objects,
    extract_first_n_objects json input_file output_file n w = (Returned PyNone, w')
    ∧ content <$> fs w' !! output_file = Some (dump json (PyList objects))
    ∧ stdout w' = stdout w ++ [Extracting n input_file] ++ scan_messages json n text
                    ++ [Writing (len objects) output_file; Done (len objects) output_file]
    ∧ (len objects ≤ Z.max 0 n)%Z
    ∧ (len objects ≤ len (readlines text))%Z.
Proof.
  intros Hread Hwrite.
  eexists _, (sample json n text).
  split; [by apply extract_run|]. cbn [fs stdout].
  split; [apply output_content|]. split; [done|].
  pose proof (sample_length n text). unfold len. lia.
Qed.

(** X8. When the input has at least [n] lines and the first [n] all
    decode, the array has exactly [n] elements, the objects of those lines
    in order, and no warning is printed. *)
Theorem valid_lines_give_n_records
    (input_file output_file : string) (n : Z) (w : world) (text : str) :
  can_read w input_file text →
  can_write w output_file →
  (0 ≤ n ≤ len (readlines text))%Z →
  Forall (λ line, parses json line = true) (first_lines n (readlines text)) →
  ∃ w' objects log,
    extract_first_n_objects json input_file output_file n w = (Returned PyNone, w')
    ∧ content <$> fs w' !! output_file = Some (dump json (PyList objects))
    ∧ stdout w' = stdout w ++ log
    ∧ warnings_of log = []
    ∧ len objects = n
    ∧ Forall2 (λ obj line, loads json (strip line) = Decoded obj)
        objects (first_lines n (readlines text)).
Proof.
  intros Hread Hwrite Hn Hall.
  destruct (all_parse_records 0 _ Hall) as [Hrec Hfail].
  eexists _, (sample json n text), _.
  split; [by apply extract_run|]. cbn [fs stdout].
  split; [apply output_content|]. split; [done|].
  split.
  { rewrite !warnings_of_app. cbn. rewrite app_nil_r.
    unfold scan_messages. by rewrite warnings_scan_log. }
  split; [|exact Hrec].
  apply Forall2_length in Hrec. unfold len, sample in *. rewrite Hrec.
  unfold first_lines. rewrite length_take. lia.
Qed.

End Sizes.

Section Log.

Variable json : json_module.

(** The line numbers the log of the scan carries lie after the starting
    index, within the lines examined. *)
Lemma scan_log_lines_bounds (i : Z) (lines : list str) :
  Forall (λ k, (i < k ≤ i + len lines)%Z) (omap message_line (scan_log json i lines)).
Proof.
  revert i. induction lines as [|line rest IH]; intros i; [constructor|].
  cbn [scan_log]. rewrite omap_app. apply Forall_app. split.
  - unfold line_log, len. cbn [length].
    destruct (loads json (strip line)); [destruct ((i + 1) mod 100 =? 0)%Z|];
      cbn; repeat constructor; lia.
  - eapply Forall_impl; [apply IH|]. unfold len. cbn. lia.
Qed.

Lemma scan_log_lines_sorted (i : Z) (lines : list str) :
  StronglySorted Z.lt (omap message_line (scan_log json i lines)).
Proof.
  revert i. induction lines as [|line rest IH]; intros i; [constructor|].
  cbn [scan_log]. rewrite omap_app.
  assert (Forall (Z.lt (i + 1)) (omap message_line (scan_log json (i + 1) rest))) as Hrest.
  { eapply Forall_impl; [apply scan_log_lines_bounds|]. cbn. lia. }
  unfold line_log.
  destruct (loads json (strip line)); [destruct ((i + 1) mod 100 =? 0)%Z|]; cbn.
  - by constructor.
  - apply IH.
  - by constructor.
Qed.

(** The progress reports of lines [i+1 .. i+len] are at most the multiples
    of 100 in that range, and all of them when every line decodes. *)
Lemma milestones_count (i : Z) (lines : list str) :
  (len (milestones json i lines) ≤ (i + len lines) / 100 - i / 100)%Z
  ∧ (Forall (λ line, parses json line = true) lines →
     len (milestones json i lines) = (i + len lines) / 100 - i / 100)%Z.
Proof.
  revert i. induction lines as [|line rest IH]; intros i.
  - unfold len. cbn. rewrite Z.add_0_r. split; [lia|]. intros _. lia.
  - destruct (IH (i + 1)%Z) as [IHle IHeq]. cbn [milestones].
    assert (len (line :: rest) = 1 + len rest)%Z as -> by (unfold len; cbn; lia).
    replace (i + (1 + len rest))%Z with (i + 1 + len rest)%Z by lia.
    assert (((i + 1) mod 100 =? 0)%Z = true ∧ ((i + 1) / 100 = i / 100 + 1)%Z
            ∨ ((i + 1) mod 100 =? 0)%Z = false ∧ ((i + 1) / 100 = i / 100)%Z) as Hdiv.
    { destruct ((i + 1) mod 100 =? 0)%Z eqn:Hmod.
      - left. split; [done|]. apply Z.eqb_eq in Hmod.
        Z.div_mod_to_equations. lia.
      - right. split; [done|]. apply Z.eqb_neq in Hmod.
        Z.div_mod_to_equations. lia. }
    destruct Hdiv as [[-> Hq]|[-> Hq]]; rewrite Hq in *.
    + destruct (parses json line) eqn:Hline; cbn [andb].
      * assert (len ((i + 1)%Z :: milestones json (i + 1) rest)
                = 1 + len (milestones json (i + 1) rest))%Z as ->
          by (unfold len; cbn; lia).
        split; [lia|].
        intros Hall. apply Forall_cons in Hall as [_ Hall]. specialize (IHeq Hall). lia.
      * split; [lia|]. intros Hall. apply Forall_cons in Hall as [Hl _]. congruence.
    + rewrite andb_false_r. split; [lia|].
      intros Hall. apply Forall_cons in Hall as [_ Hall]. specialize (IHeq Hall). lia.
Qed.

(** X9. The warnings and progress reports of a call come in the order of
    the lines: the line numbers they carry increase strictly through the
    output, so no line is reported twice, and each lies between 1 and
    [n]. *)
Theorem reports_in_line_order
    (input_file output_file : string) (n : Z) (w : world) (text : str) :
  can_read w input_file text →
  ∃ r w' log,
    extract_first_n_objects json input_file output_file n w = (r, w')
    ∧ stdout w' = stdout w ++ log
    ∧ StronglySorted Z.lt (omap message_line log)
    ∧ Forall (λ k, (1 ≤ k ≤ n)%Z ∧ (k ≤ len (readlines text))%Z)
        (omap message_line log).
Proof.
  intros Hread.
  destruct (extract_prints json input_file output_file n w text Hread)
    as (r & w' & closing & Hrun & Hout & Hwarn & Hprog).
  exists r, w', ([Extracting n input_file] ++ scan_messages json n text ++ closing).
  split; [done|]. split; [done|].
  assert (omap message_line closing = []) as Hclosing.
  { clear -Hwarn Hprog. induction closing as [|m closing IH]; [done|].
    destruct m; try discriminate; cbn in *; by apply IH. }
  rewrite !omap_app, Hclosing, app_nil_r. cbn [omap list_omap message_line app].
  unfold scan_messages. split; [apply scan_log_lines_sorted|].
  eapply Forall_impl; [apply scan_log_lines_bounds|]. cbn.
  intros k Hk. unfold len, first_lines in *. rewrite length_take in Hk. lia.
Qed.

(** X10. A call prints at most one progress report per hundred lines
    examined: no more than [min n (number of lines) / 100] of them, and
    exactly that many when all the lines examined decode. *)
Theorem progress_reports_counted
    (input_file output_file : string) (n : Z) (w : world) (text : str) :
  can_read w input_file text →
  ∃ r w' log,
    extract_first_n_objects json input_file output_file n w = (r, w')
    ∧ stdout w' = stdout w ++ log
    ∧ (len (progress_of log) ≤ len (first_lines n (readlines text)) / 100)%Z
    ∧ (Forall (λ line, parses json line = true) (first_lines n (readlines text)) →
       len (progress_of log) = len (first_lines n (readlines text)) / 100)%Z.
Proof.
  intros Hread.
  destruct (extract_log json input_file output_file n w text Hread)
    as (r & w' & log & Hrun & Hout & _ & Hprog).
  exists r, w', log. split; [done|]. split; [done|]. rewrite Hprog.
  destruct (milestones_count 0 (first_lines n (readlines text))) as [Hle Heq].
  rewrite Z.add_0_l in *. change (0 / 100)%Z with 0%Z in *. rewrite Z.sub_0_r in *.
  by split.
Qed.

End Log.

(** ** Whitespace around a line *)

Lemma lstrip_padded (pre s : str) :
  Forall (λ ch, Py_UNICODE_ISSPACE ch = true) pre → lstrip (pre ++ s) = lstrip s.
Proof.
  induction 1 as [|ch pre Hch _ IH]; [done|]. cbn [app lstrip]. by rewrite Hch.
Qed.

Lemma rstrip_whitespace (post : str) :
  Forall (λ ch, Py_UNICODE_ISSPACE ch = true) post → rstrip post = [].
Proof.
  induction 1 as [|ch post Hch _ IH]; [done|]. cbn [rstrip]. by rewrite IH, Hch.
Qed.

Lemma rstrip_padded (s post : str) :
  Forall (λ ch, Py_UNICODE_ISSPACE ch = true) post → rstrip (s ++ post) = rstrip s.
Proof.
  intros Hpost. induction s as [|ch s IH].
  - by apply rstrip_whitespace.
  - cbn [app rstrip]. by rewrite IH.
Qed.

Lemma lstrip_app (s post : str) :
  lstrip (s ++ post)
  = match lstrip s with [] => lstrip post | _ => lstrip s ++ post end.
Proof.
  induction s as [|ch s IH]; [done|]. cbn [app lstrip].
  destruct (Py_UNICODE_ISSPACE ch); [exact IH|done].
Qed.

(** Whitespace before and after a text does not change what [strip]
    leaves of it. *)
Lemma strip_padded (pre s post : str) :
  Forall (λ ch, Py_UNICODE_ISSPACE ch = true) pre →
  Forall (λ ch, Py_UNICODE_ISSPACE ch = true) post →
  strip (pre ++ s ++ post) = strip s.
Proof.
  intros Hpre Hpost. unfold strip. rewrite lstrip_padded by done.
  rewrite lstrip_app. destruct (lstrip s) as [|ch r] eqn:Hs.
  - by rewrite lstrip_whitespace.
  - by rewrite rstrip_padded.
Qed.

(** X11. The loop sees a line only through [strip]: whitespace added
    before or after the lines (indentation, trailing blanks, another line
    terminator) changes neither the records collected nor anything that
    is printed. *)
Theorem padding_changes_nothing (json : json_module) (n i : Z)
    (lines padded : list str) (objects : list value) (w : world) :
  Forall2 (λ line line',
             ∃ pre post,
               Forall (λ ch, Py_UNICODE_ISSPACE ch = true) pre
               ∧ Forall (λ ch, Py_UNICODE_ISSPACE ch = true) post
               ∧ line' = pre ++ line ++ post) lines padded →
  for_lines json n i padded objects w = for_lines json n i lines objects w.
Proof.
  intros Hpad. revert i objects w.
  induction Hpad as [|line line' lines padded (pre & post & Hpre & Hpost & ->) _ IH];
    intros i objects w; [done|].
  cbn [for_lines]. rewrite strip_padded by done.
  destruct (i >=? n)%Z; [done|].
  destruct (loads json (strip line)) as [obj|e]; unfold mbind, M_bind.
  - destruct ((i + 1) mod 100 =? 0)%Z; cbn; apply IH.
  - cbn. apply IH.
Qed.

Lemma padding_changes_nothing_witness :
  Forall2 (λ line line',
             ∃ pre post,
               Forall (λ ch, Py_UNICODE_ISSPACE ch = true) pre
               ∧ Forall (λ ch, Py_UNICODE_ISSPACE ch = true) post
               ∧ line' = pre ++ line ++ post)
    [lit "[1, 2]"; lit "{bad json"]
    [lit "  [1, 2] " ++ [CR; LF]; lit "{bad json" ++ [LF]]
  ∧ for_lines Mini.json 2 0
      [lit "  [1, 2] " ++ [CR; LF]; lit "{bad json" ++ [LF]] [] empty_disk
    = for_lines Mini.json 2 0 [lit "[1, 2]"; lit "{bad json"] [] empty_disk.
Proof.
  assert (Forall2 (λ line line',
             ∃ pre post,
               Forall (λ ch, Py_UNICODE_ISSPACE ch = true) pre
               ∧ Forall (λ ch, Py_UNICODE_ISSPACE ch = true) post
               ∧ line' = pre ++ line ++ post)
            [lit "[1, 2]"; lit "{bad json"]
            [lit "  [1, 2] " ++ [CR; LF]; lit "{bad json" ++ [LF]]) as Hpad.
  { constructor; [|constructor; [|constructor]].
    - exists (lit "  "), (lit " " ++ [CR; LF]).
      split; [repeat constructor|]. split; [repeat constructor|]. reflexivity.
    - exists [], [LF].
      split; [constructor|]. split; [repeat constructor|]. reflexivity. }
  split; [exact Hpad|].
  exact (padding_changes_nothing Mini.json 2 0 _ _ [] empty_disk Hpad).
Defined.

(** ** The command line *)

Section CommandLine.

Variable json : json_module.
Variable int : string → option Z.

(** X12. When the first argument is not an integer literal the script
    ends with the [ValueError] of [int] before doing anything else:
    nothing is printed and no file is opened, whatever the other
    arguments are. *)
Theorem main_rejects_non_integer (argv : list string) (w : world) :
  (len argv > 1)%Z →
  int (argv !!! 1%nat) = None →
  main json int argv w = (Uncaught (ValueError (argv !!! 1%nat)), w).
Proof.
  intros Hlen Hint. unfold main.
  assert ((len argv >? 1)%Z = true) as -> by (apply Z.gtb_lt; lia).
  by rewrite Hint.
Qed.

(** X13. Run without arguments, the script reads
    [arxiv-metadata-oai-snapshot.json] and writes [arxiv_sample.json]:
    when the first can be read and the second written it finishes, and
    the array written holds the objects of the lines among the first 100
    that decode, so at most 100 of them. *)
Theorem main_defaults (prog : string) (w : world) (text : str) :
  can_read w "arxiv-metadata-oai-snapshot.json" text →
  can_write w "arxiv_sample.json" →
  ∃ w' objects,
    main json int [prog] w = (Finished, w')
    ∧ content <$> fs w' !! "arxiv_sample.json" = Some (dump json (PyList objects))
    ∧ Forall2 (λ obj line, loads json (strip line) = Decoded obj)
        objects (filter (λ line, parses json line) (first_lines 100 (readlines text)))
    ∧ (len objects ≤ 100)%Z.
Proof.
  intros Hread Hwrite. unfold main. cbv zeta.
  change (len [prog] >? 1)%Z with false. change (len [prog] >? 2)%Z with false.
  change (len [prog] >? 3)%Z with false. cbv iota.
  rewrite (extract_run json _ _ _ _ _ Hread Hwrite).
  eexists _, (sample json 100 text). split; [done|]. cbn [fs].
  split; [apply output_content|]. split; [apply parsed_records_filter|].
  pose proof (sample_length json 100 text). unfold len. lia.
Qed.

(** X14. The arguments are, in this order, [n], the output file and the
    input file; the name of the program and any further argument are
    ignored.  When [n] is an integer literal, the input can be read and
    the output written, the script finishes having written to the output
    the objects of the lines among the first [n] of the input that
    decode. *)
Theorem main_with_arguments
    (prog arg output_file input_file : string) (extra : list string)
    (n : Z) (w : world) (text : str) :
  int arg = Some n →
  can_read w input_file text →
  can_write w output_file →
  ∃ w' objects,
    main json int (prog :: arg :: output_file :: input_file :: extra) w = (Finished, w')
    ∧ extract_first_n_objects json input_file output_file n w = (Returned PyNone, w')
    ∧ content <$> fs w' !! output_file = Some (dump json (PyList objects))
    ∧ Forall2 (λ obj line, loads json (strip line) = Decoded obj)
        objects (filter (λ line, parses json line) (first_lines n (readlines text))).
Proof.
  intros Hint Hread Hwrite. unfold main. cbv zeta.
  set (argv := prog :: arg :: output_file :: input_file :: extra).
  assert (len argv > 3)%Z as Hlen by (unfold len, argv; cbn [length]; lia).
  assert ((len argv >? 1)%Z = true) as -> by (apply Z.gtb_lt; lia).
  assert ((len argv >? 2)%Z = true) as -> by (apply Z.gtb_lt; lia).
  assert ((len argv >? 3)%Z = true) as -> by (apply Z.gtb_lt; lia).
  change (argv !!! 1%nat) with arg. change (argv !!! 2%nat) with output_file.
  change (argv !!! 3%nat) with input_file. rewrite Hint.
  rewrite (extract_run json _ _ _ _ _ Hread Hwrite).
  eexists _, (sample json n text). split; [done|]. split; [done|]. cbn [fs].
  split; [apply output_content|]. apply parsed_records_filter.
Qed.

(** X15. An input file that cannot be opened ends the script with the
    exception of [open], uncaught: no file has changed and only the
    opening line has been printed. *)
Theorem main_missing_input
    (prog arg output_file input_file : string) (extra : list string)
    (n : Z) (w w1 : world) (e : OSError) :
  int arg = Some n →
  open_read input_file w = (Raised e, w1) →
  ∃ w',
    main json int (prog :: arg :: output_file :: input_file :: extra) w
    = (Uncaught (OS e), w')
    ∧ fs w' = fs w
    ∧ stdout w' = stdout w ++ [Extracting n input_file].
Proof.
  intros Hint Hopen. unfold main. cbv zeta.
  set (argv := prog :: arg :: output_file :: input_file :: extra).
  assert (len argv > 3)%Z as Hlen by (unfold len, argv; cbn [length]; lia).
  assert ((len argv >? 1)%Z = true) as -> by (apply Z.gtb_lt; lia).
  assert ((len argv >? 2)%Z = true) as -> by (apply Z.gtb_lt; lia).
  assert ((len argv >? 3)%Z = true) as -> by (apply Z.gtb_lt; lia).
  change (argv !!! 1%nat) with arg. change (argv !!! 2%nat) with output_file.
  change (argv !!! 3%nat) with input_file. rewrite Hint.
  rewrite (extract_no_input json _ _ _ _ _ _ Hopen).
  by eexists.
Qed.

End CommandLine.

(** ** The further properties at concrete inputs *)

Lemma n_past_the_end_takes_whole_file_witness :
  can_read (disk_with three_lines) input_name three_lines
  ∧ can_write (disk_with three_lines) output_name
  ∧ (len (readlines three_lines) ≤ 100)%Z
  ∧ ∃ w' objects,
      extract_first_n_objects Mini.json input_name output_name 100
        (disk_with three_lines) = (Returned PyNone, w')
      ∧ content <$> fs w' !! output_name = Some (dump Mini.json (PyList objects))
      ∧ Forall2 (λ obj line, loads Mini.json (strip line) = Decoded obj)
          objects (filter (λ line, parses Mini.json line) (readlines three_lines))
      ∧ ∀ m, (100 ≤ m)%Z →
          fs (extract_first_n_objects Mini.json input_name output_name m
                (disk_with three_lines)).2 = fs w'.
Proof.
  assert (len (readlines three_lines) ≤ 100)%Z as Hn by (by vm_compute).
  assert (can_read (disk_with three_lines) input_name three_lines) as Hread.
  { exists (File true true three_lines). by vm_compute. }
  assert (can_write (disk_with three_lines) output_name) as Hwrite.
  { intros f Hf. vm_compute in Hf. discriminate. }
  split; [exact Hread|]. split; [exact Hwrite|].
  split; [exact Hn|].
  exact (n_past_the_end_takes_whole_file Mini.json input_name output_name 100
           (disk_with three_lines) three_lines
           Hread Hwrite Hn).
Defined.

Lemma larger_n_extends_the_array_witness :
  can_read (disk_with three_lines) input_name three_lines
  ∧ can_write (disk_with three_lines) output_name
  ∧ (1 ≤ 3)%Z
  ∧ ∃ wn wm objects more,
      extract_first_n_objects Mini.json input_name output_name 1
        (disk_with three_lines) = (Returned PyNone, wn)
      ∧ extract_first_n_objects Mini.json input_name output_name 3
          (disk_with three_lines) = (Returned PyNone, wm)
      ∧ content <$> fs wn !! output_name = Some (dump Mini.json (PyList objects))
      ∧ content <$> fs wm !! output_name
        = Some (dump Mini.json (PyList (objects ++ more)))
      ∧ Forall2 (λ obj line, loads Mini.json (strip line) = Decoded obj)
          (objects ++ more)
          (filter (λ line, parses Mini.json line)
             (first_lines 3 (readlines three_lines))).
Proof.
  assert (1 ≤ 3)%Z as Hnm by lia.
  assert (can_read (disk_with three_lines) input_name three_lines) as Hread.
  { exists (File true true three_lines). by vm_compute. }
  assert (can_write (disk_with three_lines) output_name) as Hwrite.
  { intros f Hf. vm_compute in Hf. discriminate. }
  split; [exact Hread|]. split; [exact Hwrite|].
  split; [exact Hnm|].
  exact (larger_n_extends_the_array Mini.json input_name output_name 1 3
           (disk_with three_lines) three_lines
           Hread Hwrite Hnm).
Defined.

Lemma array_length_bounded_witness :
  can_read (disk_with three_lines) input_name three_lines
  ∧ can_write (disk_with three_lines) output_name
  ∧ ∃ w' objects,
      extract_first_n_objects Mini.json input_name output_name 2
        (disk_with three_lines) = (Returned PyNone, w')
      ∧ content <$> fs w' !! output_name = Some (dump Mini.json (PyList objects))
      ∧ stdout w' = stdout (disk_with three_lines) ++ [Extracting 2 input_name]
                      ++ scan_messages Mini.json 2 three_lines
                      ++ [Writing (len objects) output_name;
                          Done (len objects) output_name]
      ∧ (len objects ≤ Z.max 0 2)%Z
      ∧ (len objects ≤ len (readlines three_lines))%Z.
Proof.
  assert (can_read (disk_with three_lines) input_name three_lines) as Hread.
  { exists (File true true three_lines). by vm_compute. }
  assert (can_write (disk_with three_lines) output_name) as Hwrite.
  { intros f Hf. vm_compute in Hf. discriminate. }
  split; [exact Hread|]. split; [exact Hwrite|].
  exact (array_length_bounded Mini.json input_name output_name 2
           (disk_with three_lines) three_lines
           Hread Hwrite).
Defined.

Lemma valid_lines_give_n_records_witness :
  can_read (disk_with many_lines) input_name many_lines
  ∧ can_write (disk_with many_lines) output_name
  ∧ (0 ≤ 120 ≤ len (readlines many_lines))%Z
  ∧ Forall (λ line, parses Mini.json line = true)
      (first_lines 120 (readlines many_lines))
  ∧ ∃ w' objects log,
      extract_first_n_objects Mini.json input_name output_name 120
        (disk_with many_lines) = (Returned PyNone, w')
      ∧ content <$> fs w' !! output_name = Some (dump Mini.json (PyList objects))
      ∧ stdout w' = stdout (disk_with many_lines) ++ log
      ∧ warnings_of log = []
      ∧ len objects = 120%Z
      ∧ Forall2 (λ obj line, loads Mini.json (strip line) = Decoded obj)
          objects (first_lines 120 (readlines many_lines)).
Proof.
  assert (0 ≤ 120 ≤ len (readlines many_lines))%Z as Hn by (by vm_compute).
  assert (Forall (λ line, parses Mini.json line = true)
            (first_lines 120 (readlines many_lines))) as Hall.
  { apply (bool_decide_unpack _). by vm_compute. }
  assert (can_read (disk_with many_lines) input_name many_lines) as Hread.
  { exists (File true true many_lines). by vm_compute. }
  assert (can_write (disk_with many_lines) output_name) as Hwrite.
  { intros f Hf. vm_compute in Hf. discriminate. }
  split; [exact Hread|]. split; [exact Hwrite|].
  split; [exact Hn|]. split; [exact Hall|].
  exact (valid_lines_give_n_records Mini.json input_name output_name 120
           (disk_with many_lines) many_lines
           Hread Hwrite Hn Hall).
Defined.

Lemma reports_in_line_order_witness :
  can_read (disk_with hundred_lines) input_name hundred_lines
  ∧ ∃ r w' log,
      extract_first_n_objects Mini.json input_name output_name 100
        (disk_with hundred_lines) = (r, w')
      ∧ stdout w' = stdout (disk_with hundred_lines) ++ log
      ∧ StronglySorted Z.lt (omap message_line log)
      ∧ Forall (λ k, (1 ≤ k ≤ 100)%Z ∧ (k ≤ len (readlines hundred_lines))%Z)
          (omap message_line log).
Proof.
  assert (can_read (disk_with hundred_lines) input_name hundred_lines) as Hread.
  { exists (File true true hundred_lines). by vm_compute. }
  split; [exact Hread|].
  exact (reports_in_line_order Mini.json input_name output_name 100
           (disk_with hundred_lines) hundred_lines Hread).
Defined.

Lemma progress_reports_counted_witness :
  can_read (disk_with many_lines) input_name many_lines
  ∧ ∃ r w' log,
      extract_first_n_objects Mini.json input_name output_name 250
        (disk_with many_lines) = (r, w')
      ∧ stdout w' = stdout (disk_with many_lines) ++ log
      ∧ (len (progress_of log) ≤ len (first_lines 250 (readlines many_lines)) / 100)%Z
      ∧ (Forall (λ line, parses Mini.json line = true)
           (first_lines 250 (readlines many_lines)) →
         len (progress_of log) = len (first_lines 250 (readlines many_lines)) / 100)%Z.
Proof.
  assert (can_read (disk_with many_lines) input_name many_lines) as Hread.
  { exists (File true true many_lines). by vm_compute. }
  split; [exact Hread|].
  exact (progress_reports_counted Mini.json input_name output_name 250
           (disk_with many_lines) many_lines Hread).
Defined.

Lemma main_rejects_non_integer_witness :
  (len ["extract_arxiv.py"; "ten"] > 1)%Z
  ∧ decimal (["extract_arxiv.py"; "ten"] !!! 1%nat) = None
  ∧ main Mini.json decimal ["extract_arxiv.py"; "ten"] (disk_with three_lines)
    = (Uncaught (ValueError (["extract_arxiv.py"; "ten"] !!! 1%nat)),
       disk_with three_lines).
Proof.
  assert (len ["extract_arxiv.py"; "ten"] > 1)%Z as Hlen by reflexivity.
  assert (decimal (["extract_arxiv.py"; "ten"] !!! 1%nat) = None) as Hint
    by reflexivity.
  split; [exact Hlen|]. split; [exact Hint|].
  exact (main_rejects_non_integer Mini.json decimal ["extract_arxiv.py"; "ten"]
           (disk_with three_lines) Hlen Hint).
Defined.

Lemma main_defaults_witness :
  can_read (disk_with three_lines) "arxiv-metadata-oai-snapshot.json" three_lines
  ∧ can_write (disk_with three_lines) "arxiv_sample.json"
  ∧ ∃ w' objects,
      main Mini.json decimal ["extract_arxiv.py"] (disk_with three_lines)
      = (Finished, w')
      ∧ content <$> fs w' !! "arxiv_sample.json"
        = Some (dump Mini.json (PyList objects))
      ∧ Forall2 (λ obj line, loads Mini.json (strip line) = Decoded obj)
          objects
          (filter (λ line, parses Mini.json line)
             (first_lines 100 (readlines three_lines)))
      ∧ (len objects ≤ 100)%Z.
Proof.
  assert (can_read (disk_with three_lines) "arxiv-metadata-oai-snapshot.json"
            three_lines) as Hread.
  { exists (File true true three_lines). by vm_compute. }
  assert (can_write (disk_with three_lines) "arxiv_sample.json") as Hwrite.
  { intros f Hf. vm_compute in Hf. discriminate. }
  split; [exact Hread|]. split; [exact Hwrite|].
  exact (main_defaults Mini.json decimal "extract_arxiv.py"
           (disk_with three_lines) three_lines Hread Hwrite).
Defined.

Lemma main_with_arguments_witness :
  decimal "2" = Some 2%Z
  ∧ can_read (disk_with three_lines) input_name three_lines
  ∧ can_write (disk_with three_lines) "two.json"
  ∧ ∃ w' objects,
      main Mini.json decimal
        ("extract_arxiv.py" :: "2" :: "two.json" :: input_name :: ["unused"])
        (disk_with three_lines) = (Finished, w')
      ∧ extract_first_n_objects Mini.json input_name "two.json" 2
          (disk_with three_lines) = (Returned PyNone, w')
      ∧ content <$> fs w' !! "two.json" = Some (dump Mini.json (PyList objects))
      ∧ Forall2 (λ obj line, loads Mini.json (strip line) = Decoded obj)
          objects
          (filter (λ line, parses Mini.json line)
             (first_lines 2 (readlines three_lines))).
Proof.
  assert (decimal "2" = Some 2%Z) as Hint by reflexivity.
  assert (can_read (disk_with three_lines) input_name three_lines) as Hread.
  { exists (File true true three_lines). by vm_compute. }
  assert (can_write (disk_with three_lines) "two.json") as Hwrite.
  { intros f Hf. vm_compute in Hf. discriminate. }
  split; [exact Hint|]. split; [exact Hread|]. split; [exact Hwrite|].
  exact (main_with_arguments Mini.json decimal
           "extract_arxiv.py" "2" "two.json" input_name ["unused"] 2
           (disk_with three_lines) three_lines Hint Hread Hwrite).
Defined.

Lemma main_missing_input_witness :
  decimal "2" = Some 2%Z
  ∧ open_read "missing.json" (disk_with three_lines)
    = (Raised (FileNotFoundError "missing.json"), disk_with three_lines)
  ∧ ∃ w',
      main Mini.json decimal
        ("extract_arxiv.py" :: "2" :: "two.json" :: "missing.json" :: [])
        (disk_with three_lines)
      = (Uncaught (OS (FileNotFoundError "missing.json")), w')
      ∧ fs w' = fs (disk_with three_lines)
      ∧ stdout w' = stdout (disk_with three_lines) ++ [Extracting 2 "missing.json"].
Proof.
  assert (decimal "2" = Some 2%Z) as Hint by reflexivity.
  assert (open_read "missing.json" (disk_with three_lines)
          = (Raised (FileNotFoundError "missing.json"), disk_with three_lines))
    as Hopen by (by vm_compute).
  split; [exact Hint|]. split; [exact Hopen|].
  exact (main_missing_input Mini.json decimal
           "extract_arxiv.py" "2" "two.json" "missing.json" [] 2
           (disk_with three_lines) (disk_with three_lines) _ Hint Hopen).
Defined.
